(** * KSA Trading API: the analysis routine and the document schemas

    A shallow embedding of [main.py] (the request handlers, in particular
    [analyze]) and of [schemas.py] (the pydantic models), followed by the
    properties of the service's specification.

    Conventions of the embedding:
    - a Python [str] is the list of its Unicode code points ([pystr]);
      [ord] is then the identity and [len] the list length;
    - a Python [float] is an IEEE 754 binary64 number, taken from the
      executable specification [SpecFloat] with [prec = 53] and
      [emax = 1024]; every operation rounds to nearest, ties to even;
    - a Python [int] is a [Z];
    - a handler that may [raise HTTPException] returns a [response]. *)

From Stdlib Require Import ZArith NArith QArith Qabs Lia List.
From Stdlib Require Import Ascii String.
From Stdlib Require Import Floats.SpecFloat.
From stdpp Require Import gmap strings.

Import ListNotations.
#[local] Open Scope Z_scope.
#[local] Set Warnings "-register-all".

(** ** Python strings *)

Module PyStr.

Definition codepoint := N.
Definition pystr := list codepoint.

(** [ord(c)] *)
Definition ord (c : codepoint) : Z := Z.of_N c.

(** [len(s)] *)
Definition len (s : pystr) : Z := Z.of_nat (List.length s).

(** The source file is UTF-8; its literals are written here as Rocq
    strings (byte sequences) and decoded to code points. *)
Fixpoint utf8_decode (bs : list N) : pystr :=
  match bs with
  | [] => []
  | b :: r =>
      if (b <? 128)%N then b :: utf8_decode r
      else if (b <? 224)%N then
        match r with
        | c1 :: r1 => ((b - 192) * 64 + (c1 - 128))%N :: utf8_decode r1
        | _ => []
        end
      else if (b <? 240)%N then
        match r with
        | c1 :: c2 :: r2 =>
            ((b - 224) * 4096 + (c1 - 128) * 64 + (c2 - 128))%N
              :: utf8_decode r2
        | _ => []
        end
      else
        match r with
        | c1 :: c2 :: c3 :: r3 =>
            ((b - 240) * 262144 + (c1 - 128) * 4096
             + (c2 - 128) * 64 + (c3 - 128))%N :: utf8_decode r3
        | _ => []
        end
  end.

Fixpoint bytes_of (s : string) : list N :=
  match s with
  | EmptyString => []
  | String a r => N_of_ascii a :: bytes_of r
  end.

(** [u "..."] is the Python literal ["..."] *)
Definition u (s : string) : pystr := utf8_decode (bytes_of s).

Definition eqb (a b : pystr) : bool := bool_decide (a = b).

(** decimal digits of a non-negative integer, as [str(n)] prints them *)
Fixpoint uint_digits (d : Decimal.uint) : pystr :=
  match d with
  | Decimal.Nil => []
  | Decimal.D0 r => 48%N :: uint_digits r
  | Decimal.D1 r => 49%N :: uint_digits r
  | Decimal.D2 r => 50%N :: uint_digits r
  | Decimal.D3 r => 51%N :: uint_digits r
  | Decimal.D4 r => 52%N :: uint_digits r
  | Decimal.D5 r => 53%N :: uint_digits r
  | Decimal.D6 r => 54%N :: uint_digits r
  | Decimal.D7 r => 55%N :: uint_digits r
  | Decimal.D8 r => 56%N :: uint_digits r
  | Decimal.D9 r => 57%N :: uint_digits r
  end.

Definition decimal (n : N) : pystr := uint_digits (N.to_uint n).

End PyStr.
Import PyStr.

(** ** Python floats *)

Module PyFloat.

Definition prec : Z := 53.
Definition emax : Z := 1024.

Definition float := spec_float.

(** [float(n)] for a Python int: the nearest binary64 number.  (Python
    raises [OverflowError] beyond the largest finite float, where this
    gives an infinity; no integer of the program comes near.) *)
Definition of_int (n : Z) : float := binary_normalize prec emax n 0 false.

Definition mul (x y : float) : float := SFmul prec emax x y.

(** [x < y], [x > y], [x <= y], [x >= y], [x == y]; all false on a NaN *)
Definition lt (x y : float) : bool := SFltb x y.
Definition gt (x y : float) : bool := SFltb y x.
Definition le (x y : float) : bool := SFleb x y.
Definition ge (x y : float) : bool := SFleb y x.
Definition eq (x y : float) : bool := SFeqb x y.

(** neither an infinity nor a NaN *)
Definition is_finite (x : float) : bool :=
  match x with
  | S754_zero _ | S754_finite _ _ _ => true
  | _ => false
  end.

(** the exact rational value of a finite float *)
Definition pow2 (e : Z) : Q :=
  match e with
  | Z0 => 1%Q
  | Zpos p => inject_Z (Z.pow_pos 2 p)
  | Zneg p => (1 # Pos.pow 2 p)%Q
  end.

Definition to_Q (x : float) : option Q :=
  match x with
  | S754_zero _ => Some 0%Q
  | S754_finite s m e =>
      Some ((if s then inject_Z (Zneg m) else inject_Z (Zpos m)) * pow2 e)%Q
  | _ => None
  end.

(** the literal [0.9]: the binary64 number nearest to 9/10,
    [0x1.ccccccccccccdp-1] *)
Definition lit_0_9 : float := S754_finite false 8106479329266893 (-53).

(** the literal [89.1], nearest binary64 number to 891/10 *)
Definition lit_89_1 : float := S754_finite false 6269855106229862 (-46).

(** round [n / 2^k] to the nearest integer, ties to even *)
Definition round_half_even_shift (n : N) (k : positive) : N :=
  let d := (2 ^ Npos k)%N in
  let q := (n / d)%N in
  let r := (n mod d)%N in
  match (2 * r ?= d)%N with
  | Lt => q
  | Gt => (q + 1)%N
  | Eq => if N.even q then q else (q + 1)%N
  end.

(** the number of tenths nearest to [m * 2^e] *)
Definition tenths (m : positive) (e : Z) : N :=
  match e with
  | Z0 => (Npos m * 10)%N
  | Zpos p => (Npos m * 2 ^ Npos p * 10)%N
  | Zneg k => round_half_even_shift (Npos m * 10) k
  end.

(** [format(x, ".1f")]: correctly rounded to one decimal place *)
Definition format_1f (x : float) : pystr :=
  match x with
  | S754_nan => u "nan"
  | S754_infinity s => (if s then u "-" else []) ++ u "inf"
  | S754_zero s => (if s then u "-" else []) ++ u "0.0"
  | S754_finite s m e =>
      let t := tenths m e in
      (if s then u "-" else [])
        ++ decimal (t / 10) ++ u "." ++ decimal (t mod 10)
  end.

End PyFloat.
Import PyFloat.

(** ** schemas.py: the response model of the analysis *)

Record AnalysisRequest := {
  symbols : list pystr;
  language : pystr
}.

Record AnalysisInsight := {
  symbol : pystr;
  rsi : float;
  sma_14 : float;
  signal : pystr;
  summary : pystr
}.

(** ** main.py: [analyze] *)

Module Analysis.

(** [sum(ord(c) for c in sym)] *)
Definition ord_sum (sym : pystr) : Z :=
  fold_left (fun acc c => acc + ord c) sym 0.

(** [rsi = (sum(ord(c) for c in sym) % 100) * 0.9] *)
Definition rsi_of (sym : pystr) : float :=
  mul (of_int (ord_sum sym mod 100)) lit_0_9.

(** [sma_14 = 50 + (len(sym) * 2)], a Python int *)
Definition sma_14_of (sym : pystr) : Z := 50 + len sym * 2.

(** [signal = "buy" if rsi < 30 else ("sell" if rsi > 70 else "hold")] *)
Definition signal_of (r : float) : pystr :=
  if lt r (of_int 30) then u "buy"
  else if gt r (of_int 70) then u "sell"
  else u "hold".

(** the conditional expression inside the Arabic f-string *)
Definition arabic_word (sig : pystr) : pystr :=
  if PyStr.eqb sig (u "buy") then u "شراء"
  else if PyStr.eqb sig (u "sell") then u "بيع"
  else u "احتفاظ".

Definition summary_of (lang sym : pystr) (r : float) (sma : Z)
    (sig : pystr) : pystr :=
  if PyStr.eqb lang (u "ar") then
    u "تحليل " ++ sym ++ u ": مؤشر القوة النسبية " ++ format_1f r
      ++ u "، متوسط متحرك 14 يوم " ++ format_1f (of_int sma)
      ++ u ". التوصية: " ++ arabic_word sig ++ u "."
  else
    sym ++ u " analysis: RSI " ++ format_1f r
      ++ u ", 14-day SMA " ++ format_1f (of_int sma)
      ++ u ". Recommendation: " ++ sig ++ u ".".

(** the body of the loop: the insight appended for [sym].  The model
    [AnalysisInsight] declares [sma_14: float], so the int is converted
    when the insight is built. *)
Definition insight_of (lang sym : pystr) : AnalysisInsight :=
  let r := rsi_of sym in
  let sma := sma_14_of sym in
  let sig := signal_of r in
  {| symbol := sym; rsi := r; sma_14 := of_int sma; signal := sig;
     summary := summary_of lang sym r sma sig |}.

(** [insights = []; for sym in request.symbols: insights.append(...)] *)
Definition analyze (request : AnalysisRequest) : list AnalysisInsight :=
  fold_left
    (fun insights sym => insights ++ [insight_of (language request) sym])
    (symbols request) [].

End Analysis.
Import Analysis.

(** ** Documents *)

(** A parsed JSON value, the input of validation and the content of the
    validated models.  Integers and floats are kept apart as Python's
    [json] module does; an object keeps its entries in order. *)
Inductive json :=
| JNull
| JBool (b : bool)
| JInt (n : Z)
| JFloat (x : float)
| JStr (s : pystr)
| JArr (items : list json)
| JObj (entries : list (string * json)).

(** the fields of a model instance in declaration order, as
    [model_dump()] returns them *)
Definition instance := list (string * json).

(** [d.get(k)]: a later entry for the same key replaces an earlier one *)
Definition get (k : string) (d : list (string * json)) : option json :=
  fold_left (fun acc kv => if String.eqb (fst kv) k then Some (snd kv) else acc)
    d None.

(** ** schemas.py: the models, as pydantic declarations *)

Module Schemas.

(** [Field(default, ge=.., gt=..)]; [default = None] is [Field(...)], a
    required field *)
Inductive FieldInfo :=
| Field (default : option json) (ge gt : option Z).

(** the annotations that occur in [schemas.py] for the persisted models
    and the analysis request *)
Inductive ftype :=
| TStr                                           (* str *)
| TFloat                                         (* float *)
| TBool                                          (* bool *)
| TDictAny                                       (* Dict[str, Any] *)
| TList (t : ftype)                              (* List[t] *)
| TModel (fields : list (string * ftype * FieldInfo)).  (* a BaseModel *)

Definition required : FieldInfo := Field None None None.

(** a plain annotation [name: str] declares a required field *)
Definition Holding : ftype := TModel
  [ ("symbol", TStr, required);
    ("quantity", TFloat, Field None (Some 0) None);
    ("avg_price", TFloat, Field None (Some 0) None) ].

Definition Portfolio : ftype := TModel
  [ ("user_id", TStr, required);
    ("holdings", TList Holding, Field (Some (JArr [])) None None);
    ("cash_sar", TFloat, Field (Some (JFloat (S754_zero false))) (Some 0) None) ].

Definition Order : ftype := TModel
  [ ("user_id", TStr, required);
    ("symbol", TStr, required);
    ("side", TStr, required);
    ("quantity", TFloat, Field None None (Some 0));
    ("price", TFloat, Field None None (Some 0));
    ("status", TStr, Field (Some (JStr (u "submitted"))) None None) ].

Definition Strategy : ftype := TModel
  [ ("user_id", TStr, required);
    ("name", TStr, required);
    ("params", TDictAny, Field (Some (JObj [])) None None);
    ("active", TBool, Field (Some (JBool true)) None None) ].

Definition AnalysisRequestModel : ftype := TModel
  [ ("symbols", TList TStr, required);
    ("language", TStr, Field (Some (JStr (u "en"))) None None) ].

End Schemas.
Import Schemas.

(** ** database.py: the storage collaborator *)

Module Database.

(** the identifier of a stored document: as the store returns it, and
    after [str(...)] *)
Inductive idval := ObjectId (s : pystr) | IdStr (s : pystr).

Definition str (i : idval) : pystr :=
  match i with ObjectId s => s | IdStr s => s end.

(** a document read back from the store: the entry ["_id"], when there
    is one, and the other entries *)
Record document := { doc_id : option idval; doc_fields : instance }.

(** the collections by name, each in insertion order, and the counter
    the next identifier is made from *)
Record store := {
  next_id : N;
  collections : gmap string (list document)
}.

Definition empty_store : store := {| next_id := 0; collections := ∅ |}.

Definition collection (st : store) (name : string) : list document :=
  default [] (collections st !! name).

(** Modelled from the spec: [create_document] of database.py, which is
    not among the sources.  The spec gives the contract
    [insert(collection_name, document) -> identifier]: the document is
    persisted in the named collection, the store assigns the identifier
    and returns it as an opaque string. *)
Definition create_document (st : store) (collection_name : string)
    (data : instance) : pystr * store :=
  let id := decimal (next_id st) in
  let d := {| doc_id := Some (ObjectId id); doc_fields := data |} in
  (id, {| next_id := N.succ (next_id st);
          collections := <[collection_name :=
                             collection st collection_name ++ [d]]>
                           (collections st) |}).

(** Modelled from the spec: [get_documents] of database.py, which is not
    among the sources.  The spec gives the contract
    [query(collection_name, filter, limit) -> ordered sequence of
    document]: the documents of the collection that pass the filter, in
    order, at most [limit] of them.  Every call site passes the empty
    filter [{}], which every document passes. *)
Definition get_documents (st : store) (collection_name : string)
    (filter_dict : document -> bool) (limit : Z) : list document :=
  take (Z.to_nat limit) (List.filter filter_dict (collection st collection_name)).

(** the filter [{}] *)
Definition no_filter : document -> bool := fun _ => true.

End Database.
Import Database.

(** ** main.py: [test_database] *)

Module Health.

(** What [test_database] asks of the global [db]: its [name] attribute,
    when it has one, and [list_collection_names()], which returns the
    names or raises an exception, kept here as its message [str(e)]. *)
Record client := {
  name : option pystr;
  list_collection_names : pystr + list pystr
}.

(** the dictionary the handler fills in and returns; its six keys are
    fixed, the two that start as [None] hold an optional string *)
Record diagnostics := {
  backend : pystr;
  database : pystr;
  database_url : option pystr;
  database_name : option pystr;
  connection_status : pystr;
  collections : list pystr
}.

Definition set_database (v : pystr) (r : diagnostics) : diagnostics :=
  {| backend := backend r; database := v; database_url := database_url r;
     database_name := database_name r;
     connection_status := connection_status r; collections := collections r |}.

Definition set_database_url (v : pystr) (r : diagnostics) : diagnostics :=
  {| backend := backend r; database := database r; database_url := Some v;
     database_name := database_name r;
     connection_status := connection_status r; collections := collections r |}.

Definition set_database_name (v : pystr) (r : diagnostics) : diagnostics :=
  {| backend := backend r; database := database r;
     database_url := database_url r; database_name := Some v;
     connection_status := connection_status r; collections := collections r |}.

Definition set_connection_status (v : pystr) (r : diagnostics) : diagnostics :=
  {| backend := backend r; database := database r;
     database_url := database_url r; database_name := database_name r;
     connection_status := v; collections := collections r |}.

Definition set_collections (v : list pystr) (r : diagnostics) : diagnostics :=
  {| backend := backend r; database := database r;
     database_url := database_url r; database_name := database_name r;
     connection_status := connection_status r; collections := v |}.

(** the truth value of [os.getenv(name)]: a variable that is unset, or
    set to the empty string, is false *)
Definition truthy (v : option pystr) : bool :=
  match v with
  | Some (_ :: _) => true
  | _ => false
  end.

(** [test_database()], with the global [db] and the environment as
    arguments.  Nothing in the outer [try] raises for a [client], so its
    handler is never entered; the inner one catches a failing
    [list_collection_names]. *)
Definition test_database (db : option client)
    (getenv : string -> option pystr) : diagnostics :=
  let response :=
    {| backend := u "✅ Running";
       database := u "❌ Not Available";
       database_url := None;
       database_name := None;
       connection_status := u "Not Connected";
       collections := [] |} in
  let response :=
    match db with
    | Some db =>
        let response := set_database (u "✅ Available") response in
        let response := set_database_url (u "✅ Configured") response in
        let response :=
          set_database_name
            (match name db with Some n => n | None => u "✅ Connected" end)
            response in
        let response := set_connection_status (u "Connected") response in
        match list_collection_names db with
        | inr names =>
            let response := set_collections (take 10 names) response in
            set_database (u "✅ Connected & Working") response
        | inl e =>
            set_database (u "⚠️  Connected but Error: " ++ take 50 e) response
        end
    | None => set_database (u "⚠️  Available but not initialized") response
    end in
  let response :=
    set_database_url
      (if truthy (getenv "DATABASE_URL") then u "✅ Set" else u "❌ Not Set")
      response in
  let response :=
    set_database_name
      (if truthy (getenv "DATABASE_NAME") then u "✅ Set" else u "❌ Not Set")
      response in
  response.

End Health.

(** ** Validation: what pydantic does with these declarations *)

Inductive loc_item := LField (name : string) | LIndex (i : nat).

Inductive error_type :=
| missing
| string_type
| float_type
| float_parsing
| bool_type
| dict_type
| list_type
| model_type
| greater_than_equal (bound : Z)
| greater_than (bound : Z).

(** one line of a [ValidationError]: where, and what is wrong *)
Definition error_details := (list loc_item * error_type)%type.

(** The outcome: all the errors found, or the normalised value. *)
Definition result := (list error_details + json)%type.

(** errors of both sides are collected *)
Definition both (r : result) (rs : list error_details + list json)
    : list error_details + list json :=
  match r, rs with
  | inr v, inr vs => inr (v :: vs)
  | inl e, inl es => inl (e ++ es)
  | inl e, inr _ => inl e
  | inr _, inl es => inl es
  end.

(** [ge] and [gt] on a float field; a NaN satisfies neither *)
Definition check_bounds (loc : list loc_item) (info : FieldInfo) (v : json)
    : result :=
  match v, info with
  | JFloat x, Field _ (Some b) _ =>
      if PyFloat.ge x (of_int b) then inr v
      else inl [(loc, greater_than_equal b)]
  | JFloat x, Field _ None (Some b) =>
      if PyFloat.gt x (of_int b) then inr v
      else inl [(loc, greater_than b)]
  | _, _ => inr v
  end.

Section Items.
Variable validate_item : list loc_item -> json -> result.

Fixpoint validate_items (loc : list loc_item) (i : nat) (l : list json)
    : list error_details + list json :=
  match l with
  | [] => inr []
  | v :: r =>
      both (validate_item (loc ++ [LIndex i]) v)
           (validate_items loc (S i) r)
  end.
End Items.

(** *** The coercions of the library

    Where a value is not of the declared type, pydantic (in its default,
    lax mode) may still read it.  Numbers are read from strings by a
    parser and booleans from numbers and strings by a table, neither of
    which is in the sources: they are parameters here, and nothing is
    assumed of them. *)

(** The least coercions: no string is read as a number, and nothing
    but a JSON boolean as a boolean.  The examples take them; none has a
    string where a number is declared, or anything but a boolean where a
    boolean is. *)
Definition no_str_as_float : pystr -> option float := fun _ => None.
Definition no_lax_bool : json -> error_type + bool := fun _ => inl bool_type.

Section Pydantic.

(** the float a string is parsed to, when it is the text of a number *)
Variable str_as_float : pystr -> option float.

(** the boolean a value that is not a JSON boolean is read as, or the
    error it is refused with *)
Variable lax_bool : json -> error_type + bool.

(** The float a JSON value is read as where a float is declared: a float
    is itself; an integer is converted as [float(n)] does, which fails
    when the nearest float is not finite; a boolean is 1.0 or 0.0; a
    string goes to the parser. *)
Definition reads_float (v : json) : option float :=
  match v with
  | JFloat x => Some x
  | JInt n => if is_finite (of_int n) then Some (of_int n) else None
  | JBool b => Some (of_int (if b then 1 else 0))
  | JStr s => str_as_float s
  | _ => None
  end.

(** Validation of a JSON value against an annotation.  A field absent
    from the input takes its default, which is not validated; entries of
    the input that the model does not declare are dropped. *)
Fixpoint validate (t : ftype) (loc : list loc_item) (v : json) {struct t}
    : result :=
  match t with
  | TStr => match v with JStr _ => inr v | _ => inl [(loc, string_type)] end
  | TFloat =>
      match reads_float v with
      | Some x => inr (JFloat x)
      | None =>
          match v with
          | JStr _ => inl [(loc, float_parsing)]
          | _ => inl [(loc, float_type)]
          end
      end
  | TBool =>
      match v with
      | JBool _ => inr v
      | _ =>
          match lax_bool v with
          | inr b => inr (JBool b)
          | inl e => inl [(loc, e)]
          end
      end
  | TDictAny => match v with JObj _ => inr v | _ => inl [(loc, dict_type)] end
  | TList t' =>
      match v with
      | JArr l =>
          match validate_items (validate t') loc 0 l with
          | inr vs => inr (JArr vs)
          | inl es => inl es
          end
      | _ => inl [(loc, list_type)]
      end
  | TModel fields =>
      match v with
      | JObj d =>
          let fix go (fs : list (string * ftype * FieldInfo))
              : list error_details + list (string * json) :=
            match fs with
            | [] => inr []
            | (name, ty, info) :: rest =>
                let here :=
                  match get name d, info with
                  | Some x, _ =>
                      match validate ty (loc ++ [LField name]) x with
                      | inr x' => check_bounds (loc ++ [LField name]) info x'
                      | inl es => inl es
                      end
                  | None, Field (Some dflt) _ _ => inr dflt
                  | None, Field None _ _ =>
                      inl [(loc ++ [LField name], missing)]
                  end in
                match here, go rest with
                | inr x, inr xs => inr ((name, x) :: xs)
                | inl e, inl es => inl (e ++ es)
                | inl e, inr _ => inl e
                | inr _, inl es => inl es
                end
            end in
          match go fields with
          | inr xs => inr (JObj xs)
          | inl es => inl es
          end
      | _ => inl [(loc, model_type)]
      end
  end.

(** [Model.model_validate(v)] *)
Definition model_validate (t : ftype) (v : json) : result := validate t [] v.

(** *** The error report

    Each error of a [ValidationError] shows the input it is about: the
    offending value, or for a missing field the object it is missing
    from.  [echoed t v] lists these inputs, in the order of the errors. *)
Fixpoint echoed (t : ftype) (v : json) {struct t} : list json :=
  match t with
  | TList t' =>
      match v with
      | JArr l => flat_map (echoed t') l
      | _ => [v]
      end
  | TModel fields =>
      match v with
      | JObj d =>
          (fix go (fs : list (string * ftype * FieldInfo)) : list json :=
             match fs with
             | [] => []
             | (name, ty, info) :: rest =>
                 match get name d, info with
                 | Some x, _ =>
                     match validate ty [] x with
                     | inr x' =>
                         match check_bounds [] info x' with
                         | inr _ => []
                         | inl _ => [x]
                         end
                     | inl _ => echoed ty x
                     end
                 | None, Field (Some _) _ _ => []
                 | None, Field None _ _ => [v]
                 end ++ go rest
             end) fields
      | _ => [v]
      end
  | _ =>
      match validate t [] v with
      | inr _ => []
      | inl _ => [v]
      end
  end.

(** A value is rendered as JSON unless it holds a NaN or an infinity
    ([json.dumps] with [allow_nan=False]). *)
Fixpoint renderable (v : json) : bool :=
  match v with
  | JFloat x => is_finite x
  | JArr l => forallb renderable l
  | JObj d =>
      (fix all (d : list (string * json)) : bool :=
         match d with
         | [] => true
         | (_, w) :: rest => renderable w && all rest
         end) d
  | _ => true
  end.


(** ** main.py: the handlers *)

(** what a request ends in: the handler's return value, the
    [HTTPException] it raised, the framework's answer to a body that
    does not validate against the handler's parameter model, or the
    server's answer when that report cannot be rendered *)
Inductive response (A : Type) :=
| Ok (content : A)
| HTTPException (status_code : Z) (detail : pystr)
| RequestValidationError (errors : list error_details)
| InternalServerError.
#[global] Arguments Ok {A} content.
#[global] Arguments HTTPException {A} status_code detail.
#[global] Arguments RequestValidationError {A} errors.
#[global] Arguments InternalServerError {A}.

Definition status {A} (r : response A) : Z :=
  match r with
  | Ok _ => 200
  | HTTPException code _ => code
  | RequestValidationError _ => 422
  | InternalServerError => 500
  end.

(** [if "_id" in d: d["_id"] = str(d["_id"])] *)
Definition stringify_id (d : document) : document :=
  match doc_id d with
  | Some i => {| doc_id := Some (IdStr (str i)); doc_fields := doc_fields d |}
  | None => d
  end.

(** The handlers read the global [db]; here it is their first argument,
    [None] when no database is configured, and the store after the call
    is returned with the response. *)
Definition db_handle := option store.

Definition create_portfolio (db : db_handle) (payload : instance)
    : response instance * db_handle :=
  match db with
  | None => (HTTPException 500 (u "Database not configured"), db)
  | Some st =>
      let (inserted_id, st') := create_document st "portfolio" payload in
      (Ok [("id", JStr inserted_id)], Some st')
  end.

Definition list_portfolios (db : db_handle) (limit : Z)
    : response (list document) * db_handle :=
  match db with
  | None => (HTTPException 500 (u "Database not configured"), db)
  | Some st =>
      let docs := get_documents st "portfolio" no_filter limit in
      (Ok (map stringify_id docs), db)
  end.

Definition place_order (db : db_handle) (order : instance)
    : response instance * db_handle :=
  match db with
  | None => (HTTPException 500 (u "Database not configured"), db)
  | Some st =>
      let (order_id, st') := create_document st "order" order in
      (Ok [("id", JStr order_id); ("status", JStr (u "received"))], Some st')
  end.

Definition list_orders (db : db_handle) (limit : Z)
    : response (list document) * db_handle :=
  match db with
  | None => (HTTPException 500 (u "Database not configured"), db)
  | Some st =>
      let docs := get_documents st "order" no_filter limit in
      (Ok (map stringify_id docs), db)
  end.

Definition create_strategy (db : db_handle) (strategy : instance)
    : response instance * db_handle :=
  match db with
  | None => (HTTPException 500 (u "Database not configured"), db)
  | Some st =>
      let (sid, st') := create_document st "strategy" strategy in
      (Ok [("id", JStr sid)], Some st')
  end.

Definition list_strategies (db : db_handle) (limit : Z)
    : response (list document) * db_handle :=
  match db with
  | None => (HTTPException 500 (u "Database not configured"), db)
  | Some st =>
      let docs := get_documents st "strategy" no_filter limit in
      (Ok (map stringify_id docs), db)
  end.

(** *** The routes *)

(** a request whose body has been validated against the parameter model
    of its handler; [limit] absent takes the handler's default *)
Inductive request :=
| POST_portfolio (payload : instance)
| GET_portfolio (limit : option Z)
| POST_orders (order : instance)
| GET_orders (limit : option Z)
| POST_strategies (strategy : instance)
| GET_strategies (limit : option Z)
| POST_analysis (request : AnalysisRequest).

Inductive content :=
| Dict (d : instance)
| Documents (docs : list document)
| Insights (l : list AnalysisInsight).

Definition returning {A} (f : A -> content)
    (r : response A * db_handle) : response content * db_handle :=
  match fst r with
  | Ok a => (Ok (f a), snd r)
  | HTTPException c d => (HTTPException c d, snd r)
  | RequestValidationError e => (RequestValidationError e, snd r)
  | InternalServerError => (InternalServerError, snd r)
  end.

Definition app (db : db_handle) (r : request) : response content * db_handle :=
  match r with
  | POST_portfolio payload => returning Dict (create_portfolio db payload)
  | GET_portfolio limit =>
      returning Documents (list_portfolios db (default 20 limit))
  | POST_orders order => returning Dict (place_order db order)
  | GET_orders limit =>
      returning Documents (list_orders db (default 50 limit))
  | POST_strategies strategy => returning Dict (create_strategy db strategy)
  | GET_strategies limit =>
      returning Documents (list_strategies db (default 50 limit))
  | POST_analysis request => (Ok (Insights (analyze request)), db)
  end.

(** the status of the service-unavailable class, which no handler uses *)
Definition service_unavailable : Z := 503.

(** whether the route reads or writes the store *)
Definition needs_store (r : request) : bool :=
  match r with POST_analysis _ => false | _ => true end.

(** *** Request bodies *)

Fixpoint strings_of (l : list json) : option (list pystr) :=
  match l with
  | [] => Some []
  | JStr s :: r => option_map (cons s) (strings_of r)
  | _ :: _ => None
  end.

(** the validated [AnalysisRequest] as the handler reads it *)
Definition analysis_request_of (v : json) : option AnalysisRequest :=
  match v with
  | JObj d =>
      match get "symbols" d, get "language" d with
      | Some (JArr l), Some (JStr lang) =>
          option_map (fun syms => {| symbols := syms; language := lang |})
                     (strings_of l)
      | _, _ => None
      end
  | _ => None
  end.

(** The answer to a body that fails validation: the errors, with status
    422; but the report shows the inputs of the errors, and when one of
    them holds a NaN or an infinity it cannot be rendered and the server
    answers 500. *)
Definition report {A} (model : ftype) (body : json)
    (errors : list error_details) : response A :=
  if forallb renderable (echoed model body)
  then RequestValidationError errors
  else InternalServerError.

(** a POST body is validated against the model the handler declares for
    its parameter; a body that fails never reaches the handler *)
Definition post (db : db_handle) (model : ftype)
    (route : instance -> request) (body : json)
    : response content * db_handle :=
  match model_validate model body with
  | inl errors => (report model body errors, db)
  | inr (JObj inst) => app db (route inst)
  | inr _ => (RequestValidationError [([], model_type)], db)
  end.

Definition post_portfolio db body := post db Portfolio POST_portfolio body.
Definition post_orders db body := post db Order POST_orders body.
Definition post_strategies db body := post db Strategy POST_strategies body.

Definition post_analysis (db : db_handle) (body : json)
    : response content * db_handle :=
  match model_validate AnalysisRequestModel body with
  | inl errors => (report AnalysisRequestModel body errors, db)
  | inr v =>
      match analysis_request_of v with
      | Some request => app db (POST_analysis request)
      | None => (RequestValidationError [([], model_type)], db)
      end
  end.

(** ** Definitions used to state the properties *)

(** [99 * 0.9], printed by Python as [89.10000000000001] *)
Definition rsi_max : float := S754_finite false 6269855106229863 (-46).

(** what is checked of the product at each residue *)
Definition residue_ok (n : Z) : bool :=
  let r := mul (of_int n) lit_0_9 in
  le (of_int 0) r && lt r (of_int 90) && le r rsi_max
  && match to_Q r with
     | Some q =>
         Qle_bool 0 q && negb (Qle_bool 90 q)
         && Qle_bool (Qabs (q - (9 # 10) * inject_Z n)) (1 # 10 ^ 14)
     | None => false
     end.

(** the outcome for one declared field, as [validate] computes it *)
Definition field_result (loc : list loc_item) (d : list (string * json))
    (f : string * ftype * FieldInfo) : result :=
  let '(name, ty, info) := f in
  match get name d, info with
  | Some x, _ =>
      match validate ty (loc ++ [LField name]) x with
      | inr x' => check_bounds (loc ++ [LField name]) info x'
      | inl es => inl es
      end
  | None, Field (Some dflt) _ _ => inr dflt
  | None, Field None _ _ => inl [(loc ++ [LField name], missing)]
  end.

Fixpoint fields_result (loc : list loc_item) (d : list (string * json))
    (fs : list (string * ftype * FieldInfo))
    : list error_details + list (string * json) :=
  match fs with
  | [] => inr []
  | f :: rest =>
      match field_result loc d f, fields_result loc d rest with
      | inr x, inr xs => inr ((fst (fst f), x) :: xs)
      | inl e, inl es => inl (e ++ es)
      | inl e, inr _ => inl e
      | inr _, inl es => inl es
      end
  end.

(** the inputs the report shows for one declared field of the object
    [d], as [echoed] computes them *)
Definition field_echo (d : list (string * json))
    (f : string * ftype * FieldInfo) : list json :=
  let '(name, ty, info) := f in
  match get name d, info with
  | Some x, _ =>
      match validate ty [] x with
      | inr x' =>
          match check_bounds [] info x' with
          | inr _ => []
          | inl _ => [x]
          end
      | inl _ => echoed ty x
      end
  | None, Field (Some _) _ _ => []
  | None, Field None _ _ => [JObj d]
  end.

(** two outcomes that are the same value, or as many errors *)
Definition agree {A} (r r' : list error_details + A) : Prop :=
  match r, r' with
  | inr a, inr b => a = b
  | inl e, inl e' => List.length e = List.length e'
  | _, _ => False
  end.

(** a list of inputs with one input for each error of an outcome *)
Definition one_each {A} (r : list error_details + A) (l : list json) : Prop :=
  match r with
  | inr _ => l = []
  | inl es => List.length l = List.length es
  end.


Definition is_zero (v : json) : Prop :=
  match v with
  | JFloat x => eq x (of_int 0) = true
  | JInt n => n = 0
  | _ => False
  end.


(** the float a JSON number is normalised to *)
Definition as_float (v : json) : option float :=
  match v with
  | JFloat x => Some x
  | JInt n => Some (of_int n)
  | _ => None
  end.


(** ** Well-formed declarations *)

(** the default of a field, when it has one, is a value the field's
    annotation and bounds accept as it is *)
Definition default_valid (ty : ftype) (info : FieldInfo) : Prop :=
  match info with
  | Field (Some d) _ _ =>
      forall loc,
        match validate ty loc d with
        | inr x => check_bounds loc info x
        | inl es => inl es
        end = inr d
  | Field None _ _ => True
  end.

(** a declaration whose models, at every depth, name each field once and
    give valid defaults *)
Fixpoint well_formed (t : ftype) : Prop :=
  match t with
  | TList t' => well_formed t'
  | TModel fs =>
      List.NoDup (map (fun f => fst (fst f)) fs) /\
      (fix all (fs : list (string * ftype * FieldInfo)) : Prop :=
         match fs with
         | [] => True
         | (_, ty, info) :: rest =>
             well_formed ty /\ default_valid ty info /\ all rest
         end) fs
  | _ => True
  end.

(** the models of [schemas.py] that are embedded *)
Definition models : list ftype :=
  [Holding; Portfolio; Order; Strategy; AnalysisRequestModel].

(** ** The routes by collection *)

(** the collection name a handler passes to the store *)
Definition collection_of (r : request) : option string :=
  match r with
  | POST_portfolio _ | GET_portfolio _ => Some "portfolio"
  | POST_orders _ | GET_orders _ => Some "order"
  | POST_strategies _ | GET_strategies _ => Some "strategy"
  | POST_analysis _ => None
  end.

(** the document a POST route stores *)
Definition payload_of (r : request) : option instance :=
  match r with
  | POST_portfolio p | POST_orders p | POST_strategies p => Some p
  | _ => None
  end.

(** the limit a GET route queries with: the parameter, or the default of
    its handler *)
Definition limit_of (r : request) : option Z :=
  match r with
  | GET_portfolio l => Some (default 20 l)
  | GET_orders l | GET_strategies l => Some (default 50 l)
  | _ => None
  end.

(** an identifier as a list handler returns it *)
Definition string_id (d : document) : Prop :=
  match doc_id d with
  | Some (ObjectId _) => False
  | _ => True
  end.

(** ** Induction on an annotation *)

(** induction on an annotation, with the hypothesis for every field of a
    model *)
Section FtypeInd.
Variable P : ftype -> Prop.
Hypothesis HStr : P TStr.
Hypothesis HFloat : P TFloat.
Hypothesis HBool : P TBool.
Hypothesis HDict : P TDictAny.
Hypothesis HList : forall t, P t -> P (TList t).
Hypothesis HModel :
  forall fs, Forall (fun f => P (snd (fst f))) fs -> P (TModel fs).

Fixpoint ftype_fields_ind (t : ftype) : P t :=
  match t with
  | TStr => HStr
  | TFloat => HFloat
  | TBool => HBool
  | TDictAny => HDict
  | TList t' => HList t' (ftype_fields_ind t')
  | TModel fs =>
      HModel fs
        ((fix go (fs : list (string * ftype * FieldInfo))
            : Forall (fun f => P (snd (fst f))) fs :=
            match fs with
            | [] => @List.Forall_nil _ _
            | (n, ty, i) :: rest =>
                @List.Forall_cons _ _ (n, ty, i) rest
                  (ftype_fields_ind ty) (go rest)
            end) fs)
  end.
End FtypeInd.

(** * Properties *)

(** ** Floats: the constants and the integer conversion *)

(** [lit_0_9] is within half a unit in the last place (2^-54) of 9/10. *)
Lemma lit_0_9_nearest :
  exists q, to_Q lit_0_9 = Some q /\
    (Qabs (q - (9 # 10)) <= 1 # (2 ^ 54))%Q.
Proof. eexists; split; [reflexivity | vm_compute; discriminate]. Qed.

Lemma lit_89_1_nearest :
  exists q, to_Q lit_89_1 = Some q /\
    (Qabs (q - (891 # 10)) <= 1 # (2 ^ 47))%Q.
Proof. eexists; split; [reflexivity | vm_compute; discriminate]. Qed.

Lemma digits2_pos_lower (p : positive) :
  2 ^ (Zpos (digits2_pos p) - 1) <= Zpos p.
Proof.
  induction p as [p IH | p IH |]; cbn [digits2_pos].
  - rewrite Pos2Z.inj_succ.
    replace (Z.succ (Zpos (digits2_pos p)) - 1)
      with (Z.succ (Zpos (digits2_pos p) - 1)) by lia.
    rewrite Z.pow_succ_r by lia. lia.
  - rewrite Pos2Z.inj_succ.
    replace (Z.succ (Zpos (digits2_pos p)) - 1)
      with (Z.succ (Zpos (digits2_pos p) - 1)) by lia.
    rewrite Z.pow_succ_r by lia. lia.
  - reflexivity.
Qed.

Lemma digits2_pos_bound (p : positive) :
  Zpos p < 2 ^ 53 -> Zpos (digits2_pos p) <= 53.
Proof.
  intros Hp. destruct (Z_le_gt_dec (Zpos (digits2_pos p)) 53) as [|Hd]; [assumption|].
  exfalso. pose proof (digits2_pos_lower p) as Hl.
  assert (2 ^ 53 <= 2 ^ (Zpos (digits2_pos p) - 1))
    by (apply Z.pow_le_mono_r; lia).
  lia.
Qed.

Lemma iter_xO_digits (p k : positive) :
  Zpos (digits2_pos (Pos.iter xO p k)) = Zpos (digits2_pos p) + Zpos k.
Proof.
  induction k as [|k IH] using Pos.peano_ind.
  - cbn. lia.
  - rewrite Pos.iter_succ. cbn [digits2_pos]. lia.
Qed.

Lemma iter_xO_value (p k : positive) :
  Pos.iter xO p k = (p * 2 ^ k)%positive.
Proof.
  induction k as [|k IH] using Pos.peano_ind.
  - cbn. lia.
  - rewrite Pos.iter_succ, IH, Pos.pow_succ_r. lia.
Qed.

(** Below 2^53 the conversion of an integer is exact: the mantissa is
    the integer shifted up to 53 bits, the exponent undoes the shift. *)
Lemma of_int_small (p : positive) :
  Zpos p < 2 ^ 53 ->
  of_int (Zpos p) =
    match Zpos (digits2_pos p) - 53 with
    | Zneg k => S754_finite false (Pos.iter xO p k) (Zneg k)
    | _ => S754_finite false p 0
    end.
Proof.
  intros Hp. pose proof (digits2_pos_bound p Hp) as Hd.
  unfold of_int, binary_normalize, binary_round, shl_align.
  assert (Hf : fexp prec emax (Zpos (digits2_pos p) + 0)
               = Zpos (digits2_pos p) - 53).
  { unfold fexp, SpecFloat.emin, prec, emax. lia. }
  rewrite Hf, Z.sub_0_r.
  destruct (Zpos (digits2_pos p) - 53) as [|k|k] eqn:Hk; [| lia |].
  - unfold binary_round_aux, shr_fexp. cbn [Zdigits2 shr_record_of_loc].
    replace (fexp prec emax (Zpos (digits2_pos p) + 0) - 0) with 0
      by (unfold fexp, SpecFloat.emin, prec, emax; lia).
    cbn [shr shr_m loc_of_shr_record round_nearest_even Zdigits2
         shr_record_of_loc].
    replace (fexp prec emax (Zpos (digits2_pos p) + 0) - 0) with 0
      by (unfold fexp, SpecFloat.emin, prec, emax; lia).
    reflexivity.
  - unfold binary_round_aux, shr_fexp. cbn [Zdigits2 shr_record_of_loc].
    pose proof (iter_xO_digits p k) as Hi.
    replace (fexp prec emax (Zpos (digits2_pos (Pos.iter xO p k)) + Zneg k)
             - Zneg k) with 0
      by (unfold fexp, SpecFloat.emin, prec, emax; lia).
    cbn [shr shr_m loc_of_shr_record round_nearest_even Zdigits2
         shr_record_of_loc].
    replace (fexp prec emax (Zpos (digits2_pos (Pos.iter xO p k)) + Zneg k)
             - Zneg k) with 0
      by (unfold fexp, SpecFloat.emin, prec, emax; lia).
    cbn [shr shr_m]. 
    replace (Zneg k <=? emax - prec)%Z with true; [reflexivity|].
    symmetry. apply Z.leb_le. unfold emax, prec. lia.
Qed.

Lemma of_int_exact (n : Z) :
  0 <= n < 2 ^ 53 ->
  exists q, to_Q (of_int n) = Some q /\ (q == inject_Z n)%Q.
Proof.
  intros [H0 Hn]. destruct n as [|p|p]; [| | lia].
  - exists 0%Q. split; reflexivity.
  - rewrite (of_int_small p Hn).
    destruct (Zpos (digits2_pos p) - 53) as [|k|k]; cbn [to_Q pow2].
    + eexists; split; [reflexivity|]. unfold Qeq; cbn. lia.
    + eexists; split; [reflexivity|]. unfold Qeq; cbn. lia.
    + eexists; split; [reflexivity|].
      rewrite iter_xO_value. unfold Qeq, Qmult, inject_Z. cbn [Qnum Qden].
      lia.
Qed.

(** ** The analysis routine *)

Lemma below_100 (P : Z -> bool) :
  forallb P (map Z.of_nat (seq 0 100)) = true ->
  forall n, 0 <= n < 100 -> P n = true.
Proof.
  intros H n Hn. rewrite forallb_forall in H. apply H.
  apply in_map_iff. exists (Z.to_nat n). split; [lia|].
  apply in_seq. lia.
Qed.

Lemma residues_ok : forall n, 0 <= n < 100 -> residue_ok n = true.
Proof. apply below_100. vm_compute. reflexivity. Qed.

(** the largest value, at residue 99 *)
Lemma rsi_max_reached : rsi_of (u "c") = rsi_max.
Proof. vm_compute. reflexivity. Qed.

(** no symbol has an [rsi] equal to 30 or to 70: the thresholds are only
    ever met strictly *)
Lemma rsi_off_thresholds (sym : pystr) :
  eq (rsi_of sym) (of_int 30) = false /\ eq (rsi_of sym) (of_int 70) = false.
Proof.
  assert (Hn : 0 <= ord_sum sym mod 100 < 100) by (apply Z.mod_pos_bound; lia).
  pose proof (below_100
    (fun n => negb (eq (mul (of_int n) lit_0_9) (of_int 30))
              && negb (eq (mul (of_int n) lit_0_9) (of_int 70)))
    ltac:(vm_compute; reflexivity) _ Hn) as H.
  apply andb_prop in H as [H30 H70]. fold (rsi_of sym) in H30, H70.
  split; [now destruct (eq (rsi_of sym) (of_int 30))
         | now destruct (eq (rsi_of sym) (of_int 70))].
Qed.

Lemma literals_distinct :
  u "buy" <> u "sell" /\ u "buy" <> u "hold" /\ u "sell" <> u "hold".
Proof. repeat split; intro H; vm_compute in H; discriminate. Qed.

Ltac float_cases r :=
  destruct r as [[|]|[|]| |[|] ?m ?e];
  cbv beta iota delta [SFcompare]; try tauto; try congruence.

(** a float cannot be both below 30 and above 70 *)
Lemma lt_30_not_gt_70 (r : float) :
  lt r (of_int 30) = true -> gt r (of_int 70) = false.
Proof.
  change (of_int 30) with (S754_finite false 8444249301319680 (-48)).
  change (of_int 70) with (S754_finite false 4925812092436480 (-46)).
  unfold lt, gt, SFltb. float_cases r.
  destruct (Z.compare_spec e (-48)), (Z.compare_spec (-46) e);
    try lia; congruence.
Qed.

Lemma signal_of_buy (r : float) :
  signal_of r = u "buy" <-> lt r (of_int 30) = true.
Proof.
  destruct literals_distinct as (Hbs & Hbh & _).
  unfold signal_of.
  destruct (lt r (of_int 30)); [tauto|].
  destruct (gt r (of_int 70)); split; intros H; congruence.
Qed.

Lemma signal_of_sell (r : float) :
  signal_of r = u "sell" <-> gt r (of_int 70) = true.
Proof.
  destruct literals_distinct as (Hbs & _ & Hsh).
  pose proof (lt_30_not_gt_70 r) as Hx. unfold signal_of.
  destruct (lt r (of_int 30)).
  - rewrite Hx by reflexivity. split; intros H; congruence.
  - destruct (gt r (of_int 70)); split; intros H; congruence.
Qed.

Lemma signal_of_hold (r : float) :
  signal_of r = u "hold" <->
  lt r (of_int 30) = false /\ gt r (of_int 70) = false.
Proof.
  destruct literals_distinct as (_ & Hbh & Hsh).
  unfold signal_of.
  destruct (lt r (of_int 30)); [split; [congruence | intros []; congruence]|].
  destruct (gt r (of_int 70)); split; try tauto; try congruence.
  intros []; congruence.
Qed.

(** [rsi == 30] and [rsi == 70]: neither strict test fires *)
Lemma signal_of_boundary (r : float) :
  eq r (of_int 30) = true \/ eq r (of_int 70) = true ->
  signal_of r = u "hold".
Proof.
  intros H. apply signal_of_hold. revert H.
  change (of_int 30) with (S754_finite false 8444249301319680 (-48)).
  change (of_int 70) with (S754_finite false 4925812092436480 (-46)).
  unfold lt, gt, eq, SFltb, SFeqb. float_cases r; try (intros []; congruence).
  destruct (Z.compare_spec e (-48)), (Z.compare_spec e (-46)),
    (Z.compare_spec (-46) e); try lia; try (intros []; congruence).
  - subst e.
    destruct (Pos.compare_cont Eq m 8444249301319680);
      intros []; split; congruence.
  - subst e.
    replace (Pos.compare_cont Eq 4925812092436480 m)
      with (CompOpp (Pos.compare_cont Eq m 4925812092436480))
      by (rewrite Pos.compare_cont_antisym; reflexivity).
    destruct (Pos.compare_cont Eq m 4925812092436480); cbv [CompOpp];
      intros []; split; congruence.
Qed.

Lemma analyze_map (request : AnalysisRequest) :
  analyze request = map (insight_of (language request)) (symbols request).
Proof.
  unfold analyze.
  enough (G : forall l acc,
    fold_left (fun insights sym =>
                 insights ++ [insight_of (language request) sym]) l acc
    = acc ++ map (insight_of (language request)) l) by apply (G _ []).
  induction l as [|sym l IH]; intros acc; cbn.
  - now rewrite app_nil_r.
  - rewrite IH, <- app_assoc. reflexivity.
Qed.

(** ** Validation *)

(** *** Reading an object *)

Lemma get_from (k : string) (d : list (string * json)) : forall acc,
  fold_left (fun acc kv => if String.eqb (fst kv) k then Some (snd kv) else acc)
    d acc
  = match get k d with Some v => Some v | None => acc end.
Proof.
  unfold get. induction d as [|[k' v] d IH]; intros acc; [reflexivity|].
  cbn [fold_left fst snd]. rewrite IH, (IH (if String.eqb k' k then _ else _)).
  destruct (fold_left _ d None); [reflexivity|].
  destruct (String.eqb k' k); reflexivity.
Qed.

Lemma get_cons (k k' : string) (v : json) (d : list (string * json)) :
  get k ((k', v) :: d)
  = match get k d with
    | Some w => Some w
    | None => if String.eqb k' k then Some v else None
    end.
Proof. unfold get at 1. cbn [fold_left fst snd]. apply get_from. Qed.


Lemma get_absent (k : string) (d : list (string * json)) :
  ~ In k (map fst d) -> get k d = None.
Proof.
  induction d as [|[k' v] d IH]; [reflexivity|]. cbn [map fst In].
  intros Hn. rewrite get_cons, IH by tauto.
  destruct (String.eqb_spec k' k); [tauto | reflexivity].
Qed.

Lemma get_present (k : string) (v : json) (d : list (string * json)) :
  List.NoDup (map fst d) -> In (k, v) d -> get k d = Some v.
Proof.
  induction d as [|[k' w] d IH]; [intros _ []|]. cbn [map fst].
  intros Hnd Hin. apply NoDup_cons_iff in Hnd as [Hk Hnd].
  rewrite get_cons. destruct Hin as [[= -> ->]|Hin].
  - rewrite get_absent by exact Hk. now rewrite String.eqb_refl.
  - now rewrite IH.
Qed.

Lemma validate_model (fs : list (string * ftype * FieldInfo))
    (loc : list loc_item) (d : list (string * json)) :
  validate (TModel fs) loc (JObj d)
  = match fields_result loc d fs with
    | inr xs => inr (JObj xs)
    | inl es => inl es
    end.
Proof.
  simpl.
  match goal with
  | |- match ?a with _ => _ end = match ?b with _ => _ end =>
      enough (E : a = b) by (rewrite E; reflexivity)
  end.
  induction fs as [|[[name ty] info] rest IH]; [reflexivity|].
  simpl. rewrite IH. reflexivity.
Qed.

Lemma validate_list (t : ftype) (loc : list loc_item) (l : list json) :
  validate (TList t) loc (JArr l)
  = match validate_items (validate t) loc 0 l with
    | inr vs => inr (JArr vs)
    | inl es => inl es
    end.
Proof. reflexivity. Qed.

Lemma validate_float loc v :
  validate TFloat loc v
  = match reads_float v with
    | Some x => inr (JFloat x)
    | None =>
        inl [(loc, match v with JStr _ => float_parsing | _ => float_type end)]
    end.
Proof.
  cbn [validate]. destruct (reads_float v); [reflexivity|].
  destruct v; reflexivity.
Qed.

Lemma echoed_model (fs : list (string * ftype * FieldInfo))
    (d : list (string * json)) :
  echoed (TModel fs) (JObj d) = flat_map (field_echo d) fs.
Proof.
  cbn [echoed].
  induction fs as [|[[name ty] info] rest IH]; [reflexivity|].
  cbn [flat_map field_echo]. rewrite <- IH. reflexivity.
Qed.

(** *** What can be rendered *)





(** *** The report and the errors *)

Lemma check_bounds_agree loc loc' info v :
  agree (check_bounds loc info v) (check_bounds loc' info v).
Proof.
  unfold check_bounds.
  destruct v as [| | |x| | |], info as [dflt [lo|] [hi|]]; cbn [agree];
    try reflexivity;
    first [destruct (PyFloat.ge x (of_int lo)) | destruct (PyFloat.gt x (of_int hi))];
    reflexivity.
Qed.

Lemma check_bounds_one loc info v es :
  check_bounds loc info v = inl es -> List.length es = 1%nat.
Proof.
  unfold check_bounds.
  destruct v as [| | |x| | |], info as [dflt [lo|] [hi|]]; try discriminate;
    first [destruct (PyFloat.ge x (of_int lo)) | destruct (PyFloat.gt x (of_int hi))];
    try discriminate; now intros [= <-].
Qed.

Lemma validate_items_agree (f : list loc_item -> json -> result) loc loc' l :
  Forall (fun v => forall l0 l1, agree (f l0 v) (f l1 v)) l ->
  forall i j, agree (validate_items f loc i l) (validate_items f loc' j l).
Proof.
  induction 1 as [|v l Hv _ IH]; intros i j; [reflexivity|].
  cbn [validate_items]. specialize (IH (S i) (S j)).
  specialize (Hv (loc ++ [LIndex i]) (loc' ++ [LIndex j])).
  destruct (f (loc ++ [LIndex i]) v), (f (loc' ++ [LIndex j]) v),
    (validate_items f loc (S i) l), (validate_items f loc' (S j) l);
    cbn [agree both] in *; try contradiction; try congruence.
  rewrite !length_app. congruence.
Qed.

Lemma field_result_agree loc loc' d name ty info :
  (forall l0 l1 v, agree (validate ty l0 v) (validate ty l1 v)) ->
  agree (field_result loc d (name, ty, info))
        (field_result loc' d (name, ty, info)).
Proof.
  intros Hty. unfold field_result.
  destruct (get name d) as [x|].
  - specialize (Hty (loc ++ [LField name]) (loc' ++ [LField name]) x).
    destruct (validate ty (loc ++ [LField name]) x),
      (validate ty (loc' ++ [LField name]) x);
      cbn [agree] in Hty; try contradiction; [exact Hty|].
    subst. apply check_bounds_agree.
  - destruct info as [[dflt|] lo hi]; reflexivity.
Qed.

Lemma fields_result_agree loc loc' d fs :
  Forall (fun f => forall l0 l1 v,
            agree (validate (snd (fst f)) l0 v) (validate (snd (fst f)) l1 v))
         fs ->
  agree (fields_result loc d fs) (fields_result loc' d fs).
Proof.
  induction 1 as [|[[name ty] info] fs Hf _ IH]; [reflexivity|].
  cbn [fields_result fst snd] in *.
  pose proof (field_result_agree loc loc' d name ty info Hf) as Hx.
  destruct (field_result loc d (name, ty, info)),
    (field_result loc' d (name, ty, info)),
    (fields_result loc d fs), (fields_result loc' d fs);
    cbn [agree] in *; try contradiction; try congruence.
  rewrite !length_app. congruence.
Qed.

(** where a value sits changes the locations of its errors only *)
Lemma validate_agree (t : ftype) :
  forall loc loc' v, agree (validate t loc v) (validate t loc' v).
Proof.
  induction t as [| | | |t IH|fs IH] using ftype_fields_ind; intros loc loc' v.
  - destruct v; reflexivity.
  - rewrite !validate_float. destruct (reads_float v); reflexivity.
  - cbn [validate]. destruct v; try reflexivity; destruct (lax_bool _); reflexivity.
  - destruct v; reflexivity.
  - destruct v as [| | | | |l|]; try reflexivity. rewrite !validate_list.
    pose proof (validate_items_agree (validate t) loc loc' l) as H.
    specialize (H ltac:(apply List.Forall_forall; intros w _ l0 l1; apply IH)
                  0%nat 0%nat).
    destruct (validate_items (validate t) loc 0 l),
      (validate_items (validate t) loc' 0 l);
      cbn [agree] in *; try contradiction; congruence.
  - destruct v as [| | | | | |d]; try reflexivity. rewrite !validate_model.
    pose proof (fields_result_agree loc loc' d fs) as H.
    specialize (H ltac:(revert IH; apply List.Forall_impl;
                        intros f Hf l0 l1 w; apply Hf)).
    destruct (fields_result loc d fs), (fields_result loc' d fs);
      cbn [agree] in *; try contradiction; congruence.
Qed.

Lemma validate_items_one_each (f : list loc_item -> json -> result)
    (e : json -> list json) loc l :
  Forall (fun v => forall l0, one_each (f l0 v) (e v)) l ->
  forall i, one_each (validate_items f loc i l) (flat_map e l).
Proof.
  induction 1 as [|v l Hv _ IH]; intros i; [reflexivity|].
  cbn [validate_items flat_map]. specialize (IH (S i)).
  specialize (Hv (loc ++ [LIndex i])).
  destruct (f (loc ++ [LIndex i]) v), (validate_items f loc (S i) l);
    cbn [one_each both] in *; rewrite ?length_app, ?Hv, ?IH;
    cbn [List.length app]; try reflexivity; lia.
Qed.

Lemma field_one_each loc d name ty info :
  (forall l0 v, one_each (validate ty l0 v) (echoed ty v)) ->
  one_each (field_result loc d (name, ty, info))
           (field_echo d (name, ty, info)).
Proof.
  intros Hty. unfold field_result, field_echo.
  destruct (get name d) as [x|].
  - pose proof (validate_agree ty (loc ++ [LField name]) [] x) as Ha.
    specialize (Hty (loc ++ [LField name]) x).
    destruct (validate ty (loc ++ [LField name]) x) as [es|x'],
      (validate ty [] x) as [es'|x'']; cbn [agree] in Ha;
      try contradiction; [exact Hty|]. subst x''.
    pose proof (check_bounds_agree (loc ++ [LField name]) [] info x') as Hb.
    destruct (check_bounds (loc ++ [LField name]) info x') as [bs|y] eqn:Hc,
      (check_bounds [] info x'); cbn [agree] in Hb; try contradiction;
      cbn [one_each]; [|reflexivity].
    now rewrite (check_bounds_one _ _ _ _ Hc).
  - destruct info as [[dflt|] lo hi]; reflexivity.
Qed.

Lemma fields_one_each loc d fs :
  Forall (fun f => forall l0 v,
            one_each (validate (snd (fst f)) l0 v) (echoed (snd (fst f)) v))
         fs ->
  one_each (fields_result loc d fs) (flat_map (field_echo d) fs).
Proof.
  induction 1 as [|[[name ty] info] fs Hf _ IH]; [reflexivity|].
  cbn [fields_result flat_map fst snd] in *.
  pose proof (field_one_each loc d name ty info Hf) as Hx.
  destruct (field_result loc d (name, ty, info)), (fields_result loc d fs);
    cbn [one_each] in *; rewrite ?Hx, ?IH, ?length_app, ?app_nil_r;
    cbn [List.length app]; try reflexivity; lia.
Qed.

(** the report shows one input for each error, and none for a value that
    validates *)
Lemma echoed_one_each (t : ftype) :
  forall loc v, one_each (validate t loc v) (echoed t v).
Proof.
  induction t as [| | | |t IH|fs IH] using ftype_fields_ind; intros loc v.
  - destruct v; reflexivity.
  - cbn [echoed]. rewrite !validate_float. destruct (reads_float v); reflexivity.
  - cbn [echoed validate].
    destruct v; try reflexivity; destruct (lax_bool _); reflexivity.
  - destruct v; reflexivity.
  - destruct v as [| | | | |l|]; try reflexivity.
    rewrite validate_list. cbn [echoed].
    pose proof (validate_items_one_each (validate t) (echoed t) loc l) as H.
    specialize (H ltac:(apply List.Forall_forall; intros w _ l0; apply IH)
                  0%nat).
    destruct (validate_items (validate t) loc 0 l); exact H.
  - destruct v as [| | | | | |d]; try reflexivity.
    rewrite validate_model, echoed_model.
    pose proof (fields_one_each loc d fs) as H.
    specialize (H ltac:(revert IH; apply List.Forall_impl;
                        intros f Hf l0 w; apply Hf)).
    destruct (fields_result loc d fs); exact H.
Qed.

(** the errors of a field are among the errors of the model *)
Lemma fields_result_error loc d fs f e :
  In f fs -> field_result loc d f = inl e ->
  exists es, fields_result loc d fs = inl es /\ incl e es.
Proof.
  induction fs as [|g rest IH]; [intros []|].
  intros [->|Hin] He; simpl.
  - rewrite He. destruct (fields_result loc d rest) as [es|xs].
    + exists (e ++ es). split; [reflexivity|]. apply incl_appl, incl_refl.
    + exists e. split; [reflexivity|]. apply incl_refl.
  - destruct (IH Hin He) as (es & -> & Hes).
    destruct (field_result loc d g) as [e'|x].
    + exists (e' ++ es). split; [reflexivity|]. now apply incl_appr.
    + exists es. split; [reflexivity|]. exact Hes.
Qed.

Lemma model_error fs d f e :
  In f fs -> field_result [] d f = inl e ->
  exists es, model_validate (TModel fs) (JObj d) = inl es /\ incl e es.
Proof.
  intros Hin He. unfold model_validate. rewrite validate_model.
  destruct (fields_result_error [] d fs f e Hin He) as (es & -> & Hes).
  exists es. split; [reflexivity | exact Hes].
Qed.










(** a model validates only if each of its fields does *)
Lemma fields_result_cons_ok loc d f rest xs :
  fields_result loc d (f :: rest) = inr xs ->
  exists x xs', field_result loc d f = inr x /\
                fields_result loc d rest = inr xs' /\
                xs = (fst (fst f), x) :: xs'.
Proof.
  simpl. destruct (field_result loc d f) as [e|x],
    (fields_result loc d rest) as [es|xs']; try discriminate.
  intros [= <-]. eauto.
Qed.

Lemma fields_result_nil_ok loc d xs :
  fields_result loc d [] = inr xs -> xs = [].
Proof. intros [= <-]. reflexivity. Qed.

(** a required [str] field *)
Lemma str_required_ok loc d name x :
  field_result loc d (name, TStr, required) = inr x ->
  exists s, x = JStr s /\ get name d = Some (JStr s).
Proof.
  unfold field_result, required.
  destruct (get name d) as [[]|]; simpl; try discriminate.
  intros [= <-]. eauto.
Qed.

(** a [str] field with a default *)
Lemma str_default_ok loc d name dflt x :
  field_result loc d (name, TStr, Field (Some dflt) None None) = inr x ->
  (exists s, x = JStr s /\ get name d = Some (JStr s)) \/
  (get name d = None /\ x = dflt).
Proof.
  unfold field_result.
  destruct (get name d) as [[]|]; simpl; try discriminate;
    intros [= <-]; eauto.
Qed.

(** a float field, by what the value is read as *)
(** a required [float] field with [gt=b] *)
Lemma float_gt_ok loc d name b x :
  field_result loc d (name, TFloat, Field None None (Some b)) = inr x ->
  exists q v, x = JFloat q /\ PyFloat.gt q (of_int b) = true /\
    get name d = Some v /\ reads_float v = Some q.
Proof.
  unfold field_result.
  destruct (get name d) as [v|]; [|discriminate].
  rewrite validate_float.
  destruct (reads_float v) as [q|] eqn:Hr; [|discriminate].
  cbn [check_bounds].
  destruct (PyFloat.gt q (of_int b)) eqn:Hgt; [|discriminate].
  intros [= <-]. eauto 10.
Qed.

(** what a valid [Order] document looks like, and what it normalises to *)
Lemma order_valid (raw : json) (order : instance) :
  model_validate Order raw = inr (JObj order) ->
  exists d uid sym side q p st vq vp,
    raw = JObj d /\
    order = [ ("user_id", JStr uid); ("symbol", JStr sym);
              ("side", JStr side); ("quantity", JFloat q);
              ("price", JFloat p); ("status", JStr st) ] /\
    get "user_id" d = Some (JStr uid) /\
    get "symbol" d = Some (JStr sym) /\
    get "side" d = Some (JStr side) /\
    (get "quantity" d = Some vq /\ reads_float vq = Some q) /\
    PyFloat.gt q (of_int 0) = true /\
    (get "price" d = Some vp /\ reads_float vp = Some p) /\
    PyFloat.gt p (of_int 0) = true /\
    (get "status" d = Some (JStr st) \/
     (get "status" d = None /\ st = u "submitted")).
Proof.
  unfold model_validate. destruct raw as [| | | | | |d];
    try (simpl; discriminate).
  unfold Order. rewrite validate_model.
  destruct (fields_result [] d _) as [es|xs] eqn:Hfs; [discriminate|].
  intros [= ->].
  apply fields_result_cons_ok in Hfs as (x1 & r1 & H1 & Hfs & ->).
  apply fields_result_cons_ok in Hfs as (x2 & r2 & H2 & Hfs & ->).
  apply fields_result_cons_ok in Hfs as (x3 & r3 & H3 & Hfs & ->).
  apply fields_result_cons_ok in Hfs as (x4 & r4 & H4 & Hfs & ->).
  apply fields_result_cons_ok in Hfs as (x5 & r5 & H5 & Hfs & ->).
  apply fields_result_cons_ok in Hfs as (x6 & r6 & H6 & Hfs & ->).
  apply fields_result_nil_ok in Hfs as ->.
  apply str_required_ok in H1 as (uid & -> & G1).
  apply str_required_ok in H2 as (sym & -> & G2).
  apply str_required_ok in H3 as (side & -> & G3).
  apply float_gt_ok in H4 as (q & vq & -> & Hq & G4 & R4).
  apply float_gt_ok in H5 as (p & vp & -> & Hp & G5 & R5).
  apply str_default_ok in H6 as [(st & -> & G6)|(G6 & ->)].
  - exists d, uid, sym, side, q, p, st, vq, vp. cbn [fst]. auto 15.
  - exists d, uid, sym, side, q, p, (u "submitted"), vq, vp. cbn [fst]. auto 15.
Qed.

Lemma eq_0_ge_0 (x : float) :
  eq x (of_int 0) = true -> PyFloat.ge x (of_int 0) = true.
Proof.
  change (of_int 0) with (S754_zero false).
  unfold eq, PyFloat.ge, SFleb, SFeqb. float_cases x.
Qed.

(** ** The store *)

Lemma collection_created (st : store) (name : string) (data : instance) :
  collection (snd (create_document st name data)) name
  = collection st name
      ++ [{| doc_id := Some (ObjectId (decimal (next_id st)));
             doc_fields := data |}].
Proof.
  unfold create_document, collection at 1. cbn [snd collections].
  rewrite lookup_insert_eq. reflexivity.
Qed.

Lemma collection_untouched (st : store) (name other : string)
    (data : instance) :
  other <> name ->
  collection (snd (create_document st name data)) other
  = collection st other.
Proof.
  intros Hne. unfold create_document, collection at 1.
  cbn [snd collections].
  rewrite lookup_insert_ne by congruence. reflexivity.
Qed.

Lemma filter_no_filter (l : list document) : List.filter no_filter l = l.
Proof. induction l as [|d l IH]; simpl; [|rewrite IH]; reflexivity. Qed.

(** with room under the limit, a query returns the whole collection *)
Lemma get_documents_all (st : store) (name : string) (limit : Z) :
  Z.of_nat (List.length (collection st name)) <= limit ->
  get_documents st name no_filter limit = collection st name.
Proof.
  intros Hl. unfold get_documents. rewrite filter_no_filter.
  apply take_ge. lia.
Qed.

Lemma get_documents_bounded (st : store) (name : string)
    (f : document -> bool) (limit : Z) :
  0 <= limit ->
  Z.of_nat (List.length (get_documents st name f limit)) <= limit.
Proof.
  intros Hl. unfold get_documents. rewrite length_take. lia.
Qed.





Lemma is_zero_reads v :
  is_zero v ->
  exists x, reads_float v = Some x /\ as_float v = Some x
            /\ eq x (of_int 0) = true.
Proof.
  destruct v as [| |n|x| | |]; cbn [is_zero]; try contradiction.
  - intros ->. exists (of_int 0). repeat split.
  - intros Hx. exists x. repeat split. exact Hx.
Qed.



Lemma ge_0_accepts_zero loc d name dflt v :
  get name d = Some v -> is_zero v ->
  exists x, as_float v = Some x /\
    field_result loc d (name, TFloat, Field dflt (Some 0) None)
    = inr (JFloat x).
Proof.
  intros Hg Hv. destruct (is_zero_reads v Hv) as (x & Hx & Ha & Hz).
  exists x. split; [exact Ha|]. unfold field_result.
  rewrite Hg, validate_float, Hx. cbn [check_bounds].
  now rewrite eq_0_ge_0.
Qed.




(** * The specification's properties of the analysis *)

(** C1.  For every symbol the signal of its insight is ["buy"] exactly
    when [rsi < 30], ["sell"] exactly when [rsi > 70] and ["hold"] exactly
    when neither holds; the tests are strict, so the floats 30.0 and 70.0
    themselves (and any float equal to one of them) give ["hold"]. *)
Theorem C1_signal_thresholds (lang sym : pystr) :
  let i := insight_of lang sym in
  (signal i = u "buy" <-> lt (rsi i) (of_int 30) = true) /\
  (signal i = u "sell" <-> gt (rsi i) (of_int 70) = true) /\
  (signal i = u "hold" <->
     lt (rsi i) (of_int 30) = false /\ gt (rsi i) (of_int 70) = false) /\
  signal_of (of_int 30) = u "hold" /\
  signal_of (of_int 70) = u "hold" /\
  (forall r, eq r (of_int 30) = true \/ eq r (of_int 70) = true ->
             signal_of r = u "hold").
Proof.
  cbn zeta. change (signal (insight_of lang sym)) with (signal_of (rsi_of sym)).
  change (rsi (insight_of lang sym)) with (rsi_of sym).
  split; [apply signal_of_buy|].
  split; [apply signal_of_sell|].
  split; [apply signal_of_hold|].
  split; [reflexivity|]. split; [reflexivity|].
  exact signal_of_boundary.
Qed.

Lemma C1_signal_thresholds_witness :
  signal (insight_of (u "en") (u "AAPL")) = u "sell" /\
  signal (insight_of (u "en") (u "2222")) = u "buy" /\
  signal (insight_of (u "en") (u "A")) = u "hold" /\
  signal_of (of_int 70) = u "hold".
Proof.
  pose proof (C1_signal_thresholds (u "en") (u "AAPL")) as (_ & Hs & _).
  pose proof (C1_signal_thresholds (u "en") (u "2222")) as (Hb & _).
  pose proof (C1_signal_thresholds (u "en") (u "A")) as (_ & _ & Hh & _ & _ & Hbd).
  cbn zeta in *.
  split; [apply Hs; vm_compute; reflexivity|].
  split; [apply Hb; vm_compute; reflexivity|].
  split; [apply Hh; vm_compute; split; reflexivity|].
  apply Hbd. right. vm_compute. reflexivity.
Defined.

(** C2, as the code has it.  For every symbol [rsi] is the binary64
    product of (the sum of the code points modulo 100) and 0.9; the
    residue is in 0..99, so [rsi] is one of 100 values, between 0 and
    [99 * 0.9 = 89.10000000000001] inclusive and therefore below 90; its
    exact value is within 10^-14 of nine tenths of the residue; and it
    depends on the symbol only. *)
Theorem C2_rsi_range (sym : pystr) :
  let n := ord_sum sym mod 100 in
  rsi_of sym = mul (of_int n) lit_0_9 /\
  0 <= n < 100 /\
  le (of_int 0) (rsi_of sym) = true /\
  lt (rsi_of sym) (of_int 90) = true /\
  le (rsi_of sym) rsi_max = true /\
  (exists q, to_Q (rsi_of sym) = Some q /\
     (0 <= q)%Q /\ (q < 90)%Q /\
     (Qabs (q - (9 # 10) * inject_Z n) <= 1 # 10 ^ 14)%Q) /\
  (forall lang lang', rsi (insight_of lang sym) = rsi (insight_of lang' sym)).
Proof.
  cbn zeta. assert (Hn : 0 <= ord_sum sym mod 100 < 100) by (apply Z.mod_pos_bound; lia).
  pose proof (residues_ok _ Hn) as Hok. unfold residue_ok in Hok.
  fold (rsi_of sym) in Hok.
  destruct (to_Q (rsi_of sym)) as [q|] eqn:Hq;
    [| rewrite andb_false_r in Hok; discriminate].
  apply andb_prop in Hok as [Hok Hqs].
  apply andb_prop in Hok as [Hok Hmax].
  apply andb_prop in Hok as [H0 H90].
  apply andb_prop in Hqs as [Hqs Herr].
  apply andb_prop in Hqs as [Hq0 Hq90].
  split; [reflexivity|]. split; [exact Hn|].
  split; [exact H0|]. split; [exact H90|]. split; [exact Hmax|].
  split; [|reflexivity].
  exists q. split; [reflexivity|].
  split; [now apply Qle_bool_iff|].
  split; [|now apply Qle_bool_iff].
  apply Qnot_le_lt. intros Hc. apply Qle_bool_iff in Hc.
  rewrite Hc in Hq90. discriminate.
Qed.

(** C2, as the spec states it, fails: the symbol ["c"] has code point 99
    and its [rsi] is 89.10000000000001, not below 89.1, neither as exact
    numbers nor in Python's comparison. *)
Lemma C2_counterexample :
  exists q, to_Q (rsi_of (u "c")) = Some q /\
    ~ (q < 891 # 10)%Q /\ lt (rsi_of (u "c")) lit_89_1 = false.
Proof.
  eexists. split; [vm_compute; reflexivity|].
  split; [|vm_compute; reflexivity].
  apply Qle_not_lt. vm_compute. discriminate.
Qed.

(** C3.  For every symbol the integer computed for [sma_14] is
    [50 + 2 * len(sym)]; the insight holds its conversion to a float,
    whose value is that integer exactly (for every length below 2^52,
    beyond any string). *)
Theorem C3_sma_14 (lang sym : pystr) :
  sma_14_of sym = 50 + 2 * len sym /\
  sma_14 (insight_of lang sym) = of_int (50 + 2 * len sym) /\
  (len sym < 2 ^ 52 - 25 ->
   exists q, to_Q (sma_14 (insight_of lang sym)) = Some q /\
             (q == inject_Z (50 + 2 * len sym))%Q).
Proof.
  assert (E : sma_14_of sym = 50 + 2 * len sym) by (unfold sma_14_of; lia).
  split; [exact E|].
  split; [cbn [insight_of sma_14]; now rewrite E|].
  intros Hlen. cbn [insight_of sma_14]. rewrite E.
  apply of_int_exact. unfold len in *. lia.
Qed.

Lemma C3_sma_14_witness :
  sma_14_of (u "AAPL") = 58 /\
  exists q, to_Q (sma_14 (insight_of (u "en") (u "AAPL"))) = Some q /\
            (q == 58)%Q.
Proof.
  destruct (C3_sma_14 (u "en") (u "AAPL")) as (H1 & _ & H3).
  split; [exact H1|].
  apply H3. vm_compute. reflexivity.
Defined.

(** C4.  The analysis returns one insight per input symbol, in the order
    of the input: the insight at each position is the one computed from
    the symbol at that position, so equal symbols at two positions give
    equal insights at both and nothing is merged; an empty list of symbols
    gives an empty list, whatever the language. *)
Theorem C4_one_insight_per_symbol (request : AnalysisRequest) :
  List.length (analyze request) = List.length (symbols request) /\
  (forall k sym, nth_error (symbols request) k = Some sym ->
     nth_error (analyze request) k
     = Some (insight_of (language request) sym)) /\
  (forall j k sym,
     nth_error (symbols request) j = Some sym ->
     nth_error (symbols request) k = Some sym ->
     exists i, nth_error (analyze request) j = Some i /\
               nth_error (analyze request) k = Some i) /\
  (symbols request = [] -> analyze request = []).
Proof.
  rewrite analyze_map. split; [apply length_map|].
  assert (Hnth : forall k sym, nth_error (symbols request) k = Some sym ->
            nth_error (map (insight_of (language request)) (symbols request)) k
            = Some (insight_of (language request) sym)).
  { intros k sym H. rewrite nth_error_map, H. reflexivity. }
  split; [exact Hnth|]. split.
  - intros j k sym Hj Hk. exists (insight_of (language request) sym).
    split; apply Hnth; assumption.
  - intros ->. reflexivity.
Qed.

Lemma C4_one_insight_per_symbol_witness :
  (exists i, nth_error (analyze {| symbols := [u "AAPL"; u "2222"; u "AAPL"];
                                    language := u "en" |}) 0 = Some i /\
             nth_error (analyze {| symbols := [u "AAPL"; u "2222"; u "AAPL"];
                                    language := u "en" |}) 2 = Some i) /\
  analyze {| symbols := []; language := u "ar" |} = [].
Proof.
  pose proof (C4_one_insight_per_symbol
                {| symbols := [u "AAPL"; u "2222"; u "AAPL"];
                   language := u "en" |}) as (_ & _ & Hdup & _).
  pose proof (C4_one_insight_per_symbol
                {| symbols := []; language := u "ar" |}) as (_ & _ & _ & Hnil).
  split.
  - apply (Hdup 0%nat 2%nat (u "AAPL")); reflexivity.
  - apply Hnil. reflexivity.
Defined.

Lemma arabic_words :
  arabic_word (u "buy") = u "شراء" /\
  arabic_word (u "sell") = u "بيع" /\
  arabic_word (u "hold") = u "احتفاظ".
Proof. repeat split; vm_compute; reflexivity. Qed.

(** C5.  The summary of an insight follows the Arabic template when the
    language is ["ar"], with the signal rendered as the Arabic word for
    it, and the English template for every other language; both print
    [rsi] and [sma_14] with one decimal place. *)
Theorem C5_summary_template (lang sym : pystr) :
  let i := insight_of lang sym in
  (lang = u "ar" ->
     summary i
     = u "تحليل " ++ sym ++ u ": مؤشر القوة النسبية " ++ format_1f (rsi i)
         ++ u "، متوسط متحرك 14 يوم " ++ format_1f (sma_14 i)
         ++ u ". التوصية: " ++ arabic_word (signal i) ++ u ".") /\
  (lang <> u "ar" ->
     summary i
     = sym ++ u " analysis: RSI " ++ format_1f (rsi i)
         ++ u ", 14-day SMA " ++ format_1f (sma_14 i)
         ++ u ". Recommendation: " ++ signal i ++ u ".") /\
  (signal i = u "buy" -> arabic_word (signal i) = u "شراء") /\
  (signal i = u "sell" -> arabic_word (signal i) = u "بيع") /\
  (signal i = u "hold" -> arabic_word (signal i) = u "احتفاظ").
Proof.
  destruct arabic_words as (Hb & Hs & Hh).
  cbn [insight_of summary rsi sma_14 signal]. unfold summary_of, PyStr.eqb.
  split; [intros ->; reflexivity|].
  split; [intros Hne; rewrite bool_decide_eq_false_2 by exact Hne; reflexivity|].
  split; [intros ->; exact Hb|].
  split; [intros ->; exact Hs|].
  intros ->; exact Hh.
Qed.

Lemma C5_summary_template_witness :
  summary (insight_of (u "en") (u "AAPL"))
  = u "AAPL analysis: RSI 77.4, 14-day SMA 58.0. Recommendation: sell." /\
  summary (insight_of (u "fr") (u "AAPL"))
  = u "AAPL analysis: RSI 77.4, 14-day SMA 58.0. Recommendation: sell." /\
  summary (insight_of (u "ar") (u "AAPL"))
  = u "تحليل AAPL: مؤشر القوة النسبية 77.4، متوسط متحرك 14 يوم 58.0. التوصية: بيع.".
Proof.
  pose proof (C5_summary_template (u "en") (u "AAPL")) as (_ & Hen & _).
  pose proof (C5_summary_template (u "fr") (u "AAPL")) as (_ & Hfr & _).
  pose proof (C5_summary_template (u "ar") (u "AAPL")) as (Har & _).
  cbn zeta in *.
  split; [rewrite Hen by (vm_compute; discriminate); vm_compute; reflexivity|].
  split; [rewrite Hfr by (vm_compute; discriminate); vm_compute; reflexivity|].
  rewrite Har by reflexivity. vm_compute. reflexivity.
Defined.

(** C10.  The empty symbol is analysed like any other: the request body
    validates, and the insight has [rsi = 0.0], [sma_14 = 50.0], the
    signal ["buy"] and a summary in the usual form. *)
Theorem C10_empty_symbol (lang : pystr) :
  let i := insight_of lang [] in
  symbol i = [] /\
  rsi i = S754_zero false /\
  sma_14 i = of_int 50 /\
  (exists q, to_Q (sma_14 i) = Some q /\ (q == 50)%Q) /\
  signal i = u "buy" /\
  (lang <> u "ar" ->
     summary i = u " analysis: RSI 0.0, 14-day SMA 50.0. Recommendation: buy.") /\
  (lang = u "ar" ->
     summary i
     = u "تحليل : مؤشر القوة النسبية 0.0، متوسط متحرك 14 يوم 50.0. التوصية: شراء.") /\
  analyze {| symbols := [[]]; language := lang |} = [i] /\
  (forall db,
     post_analysis db (JObj [("symbols", JArr [JStr []]); ("language", JStr lang)])
     = (Ok (Insights [i]), db)) /\
  (forall db,
     post_analysis db (JObj [("symbols", JArr [JStr (u "")])])
     = (Ok (Insights [insight_of (u "en") []]), db)).
Proof.
  cbn zeta.
  split; [reflexivity|]. split; [reflexivity|]. split; [reflexivity|].
  split; [eexists; split; [vm_compute; reflexivity | reflexivity]|].
  split; [reflexivity|].
  split.
  { intros Hne. cbn [insight_of summary]. unfold summary_of, PyStr.eqb.
    rewrite bool_decide_eq_false_2 by exact Hne. vm_compute. reflexivity. }
  split; [intros ->; vm_compute; reflexivity|].
  split; [reflexivity|].
  split; intros db; reflexivity.
Qed.

(** * The specification's properties of validation and storage *)


(** C6, as the spec states it, fails: with no database configured a
    route that needs the store ends in status 500, the plain server
    error, not in the status of the service-unavailable class. *)
Lemma C6_counterexample :
  needs_store (GET_orders None) = true /\
  fst (app None (GET_orders None))
  = HTTPException 500 (u "Database not configured") /\
  status (fst (app None (GET_orders None))) <> service_unavailable.
Proof.
  split; [reflexivity|]. split; [reflexivity|].
  change (500 <> 503). discriminate.
Qed.

(** C6, as the code has it.  With no database configured, each of the
    six handlers that read or write the store raises at once an
    [HTTPException] with status 500 (a server-side failure, but not the
    status of the service-unavailable class) and the detail
    ["Database not configured"], whatever its argument, and the
    handle stays unconfigured; so does a POST whose body validates.  The
    analysis answers as it does with a database, for it never looks at
    the handle. *)
Theorem C6_store_not_configured (r : request) :
  (needs_store r = true ->
     app None r = (HTTPException 500 (u "Database not configured"), None) /\
     500 <= status (fst (app None r)) < 600 /\
     status (fst (app None r)) <> service_unavailable) /\
  (forall (payload : instance) (limit : Z),
     let failure {A} : response A * db_handle :=
       (HTTPException 500 (u "Database not configured"), None) in
     create_portfolio None payload = failure /\
     list_portfolios None limit = failure /\
     place_order None payload = failure /\
     list_orders None limit = failure /\
     create_strategy None payload = failure /\
     list_strategies None limit = failure) /\
  (forall (body : json) (inst : instance),
     (model_validate Portfolio body = inr (JObj inst) ->
      post_portfolio None body
      = (HTTPException 500 (u "Database not configured"), None)) /\
     (model_validate Order body = inr (JObj inst) ->
      post_orders None body
      = (HTTPException 500 (u "Database not configured"), None)) /\
     (model_validate Strategy body = inr (JObj inst) ->
      post_strategies None body
      = (HTTPException 500 (u "Database not configured"), None))) /\
  (forall db request,
     app db (POST_analysis request) = (Ok (Insights (analyze request)), db) /\
     app None (POST_analysis request) = (Ok (Insights (analyze request)), None)).
Proof.
  split.
  - intros Hr.
    destruct r; try discriminate Hr;
      (split; [reflexivity|];
       split; [change (500 <= 500 < 600); lia | change (500 <> 503); lia]).
  - split; [intros; repeat split|].
    split; [|intros; split; reflexivity].
    intros body inst.
    unfold post_portfolio, post_orders, post_strategies, post.
    repeat split; intros ->; reflexivity.
Qed.


(** C8.  A Portfolio document with a [user_id], no holdings (an empty list
    or none given) and a cash balance of zero (0, 0.0, -0.0 or none given)
    validates: the normalised document has the empty list of holdings and
    the zero balance, and posting it stores it. *)
Theorem C8_portfolio_boundary (d : list (string * json)) (uid : pystr)
    (cash : json) :
  get "user_id" d = Some (JStr uid) ->
  get "holdings" d = Some (JArr []) \/ get "holdings" d = None ->
  (get "cash_sar" d = Some cash /\ is_zero cash) \/
  (get "cash_sar" d = None /\ cash = JFloat (S754_zero false)) ->
  exists c,
    as_float cash = Some c /\ eq c (of_int 0) = true /\
    let portfolio :=
      [ ("user_id", JStr uid); ("holdings", JArr []); ("cash_sar", JFloat c) ] in
    model_validate Portfolio (JObj d) = inr (JObj portfolio) /\
    forall st,
      post_portfolio (Some st) (JObj d)
      = (Ok (Dict [("id", JStr (decimal (next_id st)))]),
         Some (snd (create_document st "portfolio" portfolio))).
Proof.
  intros Hu Hh Hc.
  assert (Fu : field_result [] d ("user_id", TStr, required) = inr (JStr uid))
    by (unfold field_result; rewrite Hu; reflexivity).
  assert (Fh : field_result [] d
                 ("holdings", TList Holding, Field (Some (JArr [])) None None)
               = inr (JArr []))
    by (unfold field_result; destruct Hh as [-> | ->]; reflexivity).
  assert (Fc : exists c, as_float cash = Some c /\ eq c (of_int 0) = true /\
            field_result [] d
              ("cash_sar", TFloat,
               Field (Some (JFloat (S754_zero false))) (Some 0) None)
            = inr (JFloat c)).
  { destruct Hc as [[Hg Hz] | [Hg ->]].
    - destruct (ge_0_accepts_zero [] d "cash_sar"
                  (Some (JFloat (S754_zero false))) cash Hg Hz)
        as (c & Hcf & Hf).
      exists c. split; [exact Hcf|]. split; [|exact Hf].
      destruct cash; simpl in Hz, Hcf; try contradiction.
      + subst n. injection Hcf as <-. reflexivity.
      + injection Hcf as <-. exact Hz.
    - exists (S754_zero false). split; [reflexivity|]. split; [reflexivity|].
      unfold field_result. rewrite Hg. reflexivity. }
  destruct Fc as (c & Hcash & Hz & Fc).
  exists c. split; [exact Hcash|]. split; [exact Hz|]. cbn zeta.
  assert (Hv : model_validate Portfolio (JObj d)
               = inr (JObj [ ("user_id", JStr uid); ("holdings", JArr []);
                             ("cash_sar", JFloat c) ])).
  { unfold model_validate, Portfolio. rewrite validate_model.
    cbn [fields_result]. rewrite Fu, Fh, Fc. reflexivity. }
  split; [exact Hv|].
  intros st. unfold post_portfolio, post. rewrite Hv. reflexivity.
Qed.

(** C9.  A valid Order document is normalised to its six fields: the
    three strings as they are, [quantity] and [price] as the floats the
    given values are read as (from a float, an integer, a boolean or the
    text of a number), both above zero, and [status] as given, or
    ["submitted"] when the document has none; once
    [place_order] has stored it, a query of the collection with room under
    the limit returns a document with exactly these fields, under the
    identifier the store returned, and so does [list_orders], the
    identifier turned into a string. *)
Theorem C9_order_round_trip (raw : json) (order : instance) (st : store)
    (limit : Z) :
  model_validate Order raw = inr (JObj order) ->
  Z.of_nat (List.length (collection st "order")) < limit ->
  let id := fst (create_document st "order" order) in
  let st' := snd (create_document st "order" order) in
  (* what was normalised *)
  (exists d uid sym side q p status,
     raw = JObj d /\
     order = [ ("user_id", JStr uid); ("symbol", JStr sym);
               ("side", JStr side); ("quantity", JFloat q);
               ("price", JFloat p); ("status", JStr status) ] /\
     get "user_id" d = Some (JStr uid) /\
     get "symbol" d = Some (JStr sym) /\
     get "side" d = Some (JStr side) /\
     (exists vq, get "quantity" d = Some vq /\ reads_float vq = Some q) /\
     gt q (of_int 0) = true /\
     (exists vp, get "price" d = Some vp /\ reads_float vp = Some p) /\
     gt p (of_int 0) = true /\
     (get "status" d = Some (JStr status) \/
      get "status" d = None /\ status = u "submitted")) /\
  (* insert *)
  place_order (Some st) order
  = (Ok [("id", JStr id); ("status", JStr (u "received"))], Some st') /\
  post_orders (Some st) raw
  = (Ok (Dict [("id", JStr id); ("status", JStr (u "received"))]), Some st') /\
  (* query *)
  (exists stored,
     In stored (get_documents st' "order" no_filter limit) /\
     doc_id stored = Some (ObjectId id) /\
     doc_fields stored = order /\
     (forall k, get k (doc_fields stored) = get k order)) /\
  (exists docs stored,
     list_orders (Some st') limit = (Ok docs, Some st') /\
     In stored docs /\
     doc_id stored = Some (IdStr id) /\
     doc_fields stored = order).
Proof.
  intros Hv Hl. cbn zeta.
  destruct (order_valid raw order Hv)
    as (d & uid & sym & side & q & p & status & vq & vp & Hraw & Hord & Gu
        & Gs & Gd & Gq & Hq & Gp & Hp & Gst).
  split.
  { exists d, uid, sym, side, q, p, status.
    repeat (split; [assumption|]).
    split; [now exists vq|]. split; [exact Hq|].
    split; [now exists vp|]. split; [exact Hp|].
    destruct Gst as [Gst|Gst]; [now left | now right]. }
  split; [reflexivity|].
  split; [unfold post_orders, post; rewrite Hv; reflexivity|].
  pose (stored := {| doc_id := Some (ObjectId (decimal (next_id st)));
                     doc_fields := order |}).
  assert (Hall : get_documents (snd (create_document st "order" order))
                   "order" no_filter limit
                 = collection st "order" ++ [stored]).
  { rewrite get_documents_all; rewrite collection_created; [reflexivity|].
    rewrite length_app. cbn [List.length]. lia. }
  split.
  - exists stored. rewrite Hall.
    split; [apply in_or_app; right; now left|].
    split; [reflexivity|]. split; reflexivity.
  - exists (map stringify_id (collection st "order" ++ [stored])),
           (stringify_id stored).
    split; [unfold list_orders; rewrite Hall; reflexivity|].
    split; [apply in_map, in_or_app; right; now left|].
    split; reflexivity.
Qed.

(** * Further properties of the analysis *)

Lemma ord_sum_from (l : pystr) : forall a,
  fold_left (fun acc c => acc + ord c) l a = a + ord_sum l.
Proof.
  unfold ord_sum. induction l as [|c l IH]; intros a; cbn [fold_left].
  - lia.
  - rewrite IH, (IH (0 + ord c)). lia.
Qed.

Lemma ord_sum_cons (c : codepoint) (l : pystr) :
  ord_sum (c :: l) = ord c + ord_sum l.
Proof. unfold ord_sum at 1. cbn [fold_left]. rewrite ord_sum_from. lia. Qed.

Lemma ord_sum_app (s t : pystr) : ord_sum (s ++ t) = ord_sum s + ord_sum t.
Proof.
  induction s as [|c s IH]; [reflexivity|].
  rewrite <- app_comm_cons, !ord_sum_cons, IH. lia.
Qed.

Lemma ord_sum_perm (s t : pystr) : Permutation s t -> ord_sum s = ord_sum t.
Proof.
  induction 1 as [|c s t _ IH|c c' s|s t r _ IH1 _ IH2].
  - reflexivity.
  - rewrite !ord_sum_cons, IH. reflexivity.
  - rewrite !ord_sum_cons. lia.
  - congruence.
Qed.

Lemma ord_sum_nonneg (s : pystr) : 0 <= ord_sum s.
Proof.
  induction s as [|c s IH]; [reflexivity|].
  rewrite ord_sum_cons. unfold ord. lia.
Qed.

(** the three signals by residue, and the printed [rsi], checked at each
    residue *)
Lemma residue_signal : forall n, 0 <= n < 100 ->
  Bool.eqb (lt (mul (of_int n) lit_0_9) (of_int 30)) (n <=? 33)
  && Bool.eqb (gt (mul (of_int n) lit_0_9) (of_int 70)) (78 <=? n) = true.
Proof.
  intros n Hn.
  exact (below_100
    (fun n => Bool.eqb (lt (mul (of_int n) lit_0_9) (of_int 30)) (n <=? 33)
              && Bool.eqb (gt (mul (of_int n) lit_0_9) (of_int 70)) (78 <=? n))
    ltac:(vm_compute; reflexivity) n Hn).
Qed.

Lemma residue_printed : forall n, 0 <= n < 100 ->
  PyStr.eqb (format_1f (mul (of_int n) lit_0_9))
            (decimal (Z.to_N (9 * n / 10)) ++ u "."
               ++ decimal (Z.to_N ((9 * n) mod 10))) = true.
Proof.
  intros n Hn.
  exact (below_100
    (fun n => PyStr.eqb (format_1f (mul (of_int n) lit_0_9))
                (decimal (Z.to_N (9 * n / 10)) ++ u "."
                   ++ decimal (Z.to_N ((9 * n) mod 10))))
    ltac:(vm_compute; reflexivity) n Hn).
Qed.

(** an integer below 2^53 is printed as itself, with [.0] *)
Lemma format_1f_of_int (n : Z) :
  0 < n < 2 ^ 53 -> format_1f (of_int n) = decimal (Z.to_N n) ++ u ".0".
Proof.
  intros [H0 Hn]. destruct n as [|p|p]; try lia.
  rewrite (of_int_small p Hn). change (Z.to_N (Zpos p)) with (Npos p).
  assert (Hten : forall t, t = (Npos p * 10)%N ->
            [] ++ decimal (t / 10) ++ u "." ++ decimal (t mod 10)
            = decimal (Npos p) ++ u ".0").
  { intros t ->. rewrite N.div_mul by discriminate.
    rewrite N.Div0.mod_mul. reflexivity. }
  destruct (Zpos (digits2_pos p) - 53) as [|k|k];
    cbn [format_1f]; apply Hten; cbn [tenths]; try reflexivity.
  unfold round_half_even_shift. rewrite iter_xO_value.
  assert (Hp : (Npos (p * 2 ^ k) * 10 = Npos p * 10 * 2 ^ Npos k)%N).
  { change (Npos (p * 2 ^ k)) with (Npos p * 2 ^ Npos k)%N. lia. }
  rewrite Hp.
  assert (Hk : (2 ^ Npos k <> 0)%N) by (apply N.pow_nonzero; discriminate).
  rewrite N.div_mul by exact Hk. rewrite N.Div0.mod_mul.
  change (2 * 0)%N with 0%N.
  destruct (N.compare_spec 0 (2 ^ Npos k)) as [E|_|E]; [|reflexivity|]; lia.
Qed.

(** X1.  The indicators do not depend on the order of the characters of
    a symbol: two symbols that are rearrangements of each other get the
    same [rsi], the same [sma_14] and the same signal. *)
Theorem X1_anagram_invariance (lang s t : pystr) :
  Permutation s t ->
  rsi (insight_of lang s) = rsi (insight_of lang t) /\
  sma_14 (insight_of lang s) = sma_14 (insight_of lang t) /\
  signal (insight_of lang s) = signal (insight_of lang t).
Proof.
  intros Hp. cbn [insight_of rsi sma_14 signal].
  assert (Hr : rsi_of s = rsi_of t)
    by (unfold rsi_of; now rewrite (ord_sum_perm s t Hp)).
  assert (Hl : sma_14_of s = sma_14_of t)
    by (unfold sma_14_of, len; now rewrite (Permutation_length Hp)).
  rewrite Hr, Hl. repeat split.
Qed.

Lemma X1_anagram_invariance_witness :
  rsi (insight_of (u "en") (u "AAPL")) = rsi (insight_of (u "en") (u "PAAL")) /\
  sma_14 (insight_of (u "en") (u "AAPL"))
  = sma_14 (insight_of (u "en") (u "PAAL")) /\
  signal (insight_of (u "en") (u "AAPL"))
  = signal (insight_of (u "en") (u "PAAL")).
Proof.
  apply X1_anagram_invariance.
  change (Permutation [65; 65; 80; 76]%N [80; 65; 65; 76]%N).
  apply perm_trans with [65; 80; 65; 76]%N.
  - apply perm_skip, perm_swap.
  - apply perm_swap.
Defined.

(** X2.  The signal by code points: with [n] the sum of the code points
    modulo 100, it is ["buy"] exactly when [n <= 33], ["sell"] exactly
    when [n >= 78] and ["hold"] exactly when [34 <= n <= 77]; no other
    signal occurs. *)
Theorem X2_signal_by_residue (lang sym : pystr) :
  let n := ord_sum sym mod 100 in
  let sig := signal (insight_of lang sym) in
  (sig = u "buy" <-> n <= 33) /\
  (sig = u "sell" <-> 78 <= n) /\
  (sig = u "hold" <-> 34 <= n <= 77) /\
  (sig = u "buy" \/ sig = u "sell" \/ sig = u "hold").
Proof.
  cbn zeta. change (signal (insight_of lang sym)) with (signal_of (rsi_of sym)).
  assert (Hn : 0 <= ord_sum sym mod 100 < 100) by (apply Z.mod_pos_bound; lia).
  pose proof (residue_signal _ Hn) as H. fold (rsi_of sym) in H.
  apply andb_prop in H as [Hb Hs].
  apply Bool.eqb_prop in Hb, Hs.
  rewrite signal_of_buy, signal_of_sell, signal_of_hold, Hb, Hs.
  rewrite !Z.leb_le, !Z.leb_gt.
  repeat split; lia.
Qed.

(** X3.  The [rsi] printed in a summary is exact: rounding in the float
    product never shows at one decimal place, the digits are those of
    nine tenths of the residue. *)
Theorem X3_rsi_printed_exactly (sym : pystr) :
  let n := ord_sum sym mod 100 in
  format_1f (rsi_of sym)
  = decimal (Z.to_N (9 * n / 10)) ++ u "." ++ decimal (Z.to_N ((9 * n) mod 10)).
Proof.
  cbn zeta.
  assert (Hn : 0 <= ord_sum sym mod 100 < 100) by (apply Z.mod_pos_bound; lia).
  pose proof (residue_printed _ Hn) as H. fold (rsi_of sym) in H.
  unfold PyStr.eqb in H. now apply bool_decide_eq_true in H.
Qed.

(** X4.  [sma_14] is an even number, at least 50, and a summary prints it
    as that integer followed by [.0] (for every length below 2^52). *)
Theorem X4_sma_14_printed (lang sym : pystr) :
  50 <= sma_14_of sym /\
  Z.even (sma_14_of sym) = true /\
  (len sym < 2 ^ 52 - 25 ->
   format_1f (sma_14 (insight_of lang sym))
   = decimal (Z.to_N (50 + 2 * len sym)) ++ u ".0").
Proof.
  unfold sma_14_of. split; [unfold len; lia|]. split.
  - replace (50 + len sym * 2) with (2 * (25 + len sym)) by lia.
    apply Z.even_even.
  - intros Hl. cbn [insight_of sma_14]. unfold sma_14_of.
    replace (50 + len sym * 2) with (50 + 2 * len sym) by lia.
    apply format_1f_of_int. unfold len in *. lia.
Qed.

Lemma X4_sma_14_printed_witness :
  format_1f (sma_14 (insight_of (u "en") (u "AAPL"))) = u "58.0".
Proof.
  destruct (X4_sma_14_printed (u "en") (u "AAPL")) as (_ & _ & H).
  apply H. vm_compute. reflexivity.
Defined.

(** X5.  The [rsi] of a concatenation depends on the two parts only
    through their code point sums; a part whose sum is a multiple of 100
    (the letter ["d"], code point 100) changes nothing, before or after. *)
Theorem X5_rsi_of_concatenation (s t : pystr) :
  rsi_of (s ++ t) = mul (of_int ((ord_sum s + ord_sum t) mod 100)) lit_0_9 /\
  rsi_of (s ++ t) = rsi_of (t ++ s) /\
  (ord_sum t mod 100 = 0 -> rsi_of (s ++ t) = rsi_of s).
Proof.
  unfold rsi_of. rewrite !ord_sum_app. split; [reflexivity|].
  split; [now rewrite Z.add_comm|].
  intros Ht. rewrite Z.add_mod, Ht, Z.add_0_r, Z.mod_mod by lia. reflexivity.
Qed.

Lemma X5_rsi_of_concatenation_witness :
  rsi_of (u "AAPL" ++ u "d") = rsi_of (u "AAPL").
Proof.
  destruct (X5_rsi_of_concatenation (u "AAPL") (u "d")) as (_ & _ & H).
  apply H. reflexivity.
Defined.

(** X6.  The analysis of a list of symbols is the analysis of its parts
    put together: splitting a request in two and joining the answers
    gives the answer to the whole. *)
Theorem X6_analyze_app (lang : pystr) (l1 l2 : list pystr) :
  analyze {| symbols := l1 ++ l2; language := lang |}
  = analyze {| symbols := l1; language := lang |}
      ++ analyze {| symbols := l2; language := lang |}.
Proof. rewrite !analyze_map. cbn [symbols language]. apply map_app. Qed.

(** * Further properties of validation *)

Lemma well_formed_model (fs : list (string * ftype * FieldInfo)) :
  well_formed (TModel fs) <->
  List.NoDup (map (fun f => fst (fst f)) fs) /\
  Forall (fun f => well_formed (snd (fst f))
                   /\ default_valid (snd (fst f)) (snd f)) fs.
Proof.
  cbn [well_formed]. apply and_iff_compat_l.
  induction fs as [|[[n ty] i] rest IH]; [split; auto|].
  rewrite Forall_cons_iff, <- IH. cbn [fst snd]. tauto.
Qed.

(** *** What a model reads and what it returns *)


(** the keys returned are the declared ones, in order *)
Lemma fields_result_keys loc d fs xs :
  fields_result loc d fs = inr xs -> map fst xs = map (fun f => fst (fst f)) fs.
Proof.
  revert xs. induction fs as [|f rest IH]; intros xs H.
  - apply fields_result_nil_ok in H as ->. reflexivity.
  - apply fields_result_cons_ok in H as (x & xs' & _ & H & ->).
    cbn [map fst]. now rewrite (IH xs' H).
Qed.

(** the bounds look at the value only *)
Lemma check_bounds_same loc loc' info v v' :
  check_bounds loc info v = inr v' ->
  v' = v /\ check_bounds loc' info v = inr v.
Proof.
  unfold check_bounds. destruct info as [dflt [lo|] [hi|]];
    destruct v as [| | |x| | |]; try (intros [= <-]; split; reflexivity).
  - destruct (PyFloat.ge x (of_int lo)); [|discriminate].
    intros [= <-]; split; reflexivity.
  - destruct (PyFloat.ge x (of_int lo)); [|discriminate].
    intros [= <-]; split; reflexivity.
  - destruct (PyFloat.gt x (of_int hi)); [|discriminate].
    intros [= <-]; split; reflexivity.
Qed.

(** one field of a well-formed model, on a document that holds its
    earlier outcome under its name *)
Lemma field_result_again loc loc' d d' n ty i x :
  (forall l v v', validate ty l v = inr v' ->
                  forall l', validate ty l' v' = inr v') ->
  default_valid ty i ->
  field_result loc d (n, ty, i) = inr x ->
  get n d' = Some x ->
  field_result loc' d' (n, ty, i) = inr x.
Proof.
  intros IH Hdef H Hg. unfold field_result in *. rewrite Hg.
  destruct (get n d) as [v|].
  - destruct (validate ty (loc ++ [LField n]) v) as [es|x0] eqn:Hv;
      [discriminate|].
    apply check_bounds_same with (loc' := loc' ++ [LField n]) in H as [-> H].
    now rewrite (IH _ _ _ Hv).
  - destruct i as [[dflt|] b b']; [|discriminate].
    injection H as <-. apply Hdef.
Qed.

Lemma validate_items_again (f : list loc_item -> json -> result) loc loc' :
  forall l i vs,
  Forall (fun v => forall l0 v', f l0 v = inr v' ->
                                 forall l', f l' v' = inr v') l ->
  validate_items f loc i l = inr vs ->
  forall j, validate_items f loc' j vs = inr vs.
Proof.
  induction l as [|v l IH]; intros i vs Hall H j.
  - injection H as <-. reflexivity.
  - apply Forall_cons_iff in Hall as [Hv Hall]. cbn [validate_items] in H.
    destruct (f (loc ++ [LIndex i]) v) as [e|x] eqn:Hx,
      (validate_items f loc (S i) l) as [es|xs] eqn:Hxs; try discriminate.
    injection H as <-. cbn [validate_items both].
    rewrite (Hv _ _ Hx), (IH _ _ Hall Hxs). reflexivity.
Qed.

(** a value that came out of validation validates to itself *)
Lemma validate_again (t : ftype) :
  well_formed t ->
  forall loc v v', validate t loc v = inr v' ->
  forall loc', validate t loc' v' = inr v'.
Proof.
  induction t as [| | | |t IH|fs IH] using ftype_fields_ind; intros Hwf loc v v' H loc'.
  - destruct v; try discriminate. injection H as <-. reflexivity.
  - rewrite validate_float in H.
    destruct (reads_float v); [|discriminate]. injection H as <-. reflexivity.
  - cbn [validate] in H.
    destruct v as [|b| | | | |]; try (injection H as <-; reflexivity);
      (destruct (lax_bool _); [discriminate|]; injection H as <-; reflexivity).
  - destruct v; try discriminate. injection H as <-. reflexivity.
  - destruct v as [| | | | |l|]; try discriminate.
    rewrite validate_list in H.
    destruct (validate_items (validate t) loc 0 l) as [es|vs] eqn:Hvs;
      [discriminate|]. injection H as <-.
    rewrite validate_list.
    rewrite (validate_items_again (validate t) loc loc' l 0%nat vs); auto.
    apply List.Forall_forall. intros w _ l0 w' Hw l'.
    exact (IH Hwf l0 w w' Hw l').
  - destruct v as [| | | | | |d]; try discriminate.
    rewrite validate_model in H.
    destruct (fields_result loc d fs) as [es|xs] eqn:Hxs; [discriminate|].
    injection H as <-. rewrite validate_model.
    apply well_formed_model in Hwf as [Hnd Hwf].
    pose proof (fields_result_keys _ _ _ _ Hxs) as Hkeys.
    enough (G : forall fs' xs',
      Forall (fun f => forall l v v', well_formed (snd (fst f)) ->
                validate (snd (fst f)) l v = inr v' ->
                forall l', validate (snd (fst f)) l' v' = inr v') fs' ->
      Forall (fun f => well_formed (snd (fst f))
                       /\ default_valid (snd (fst f)) (snd f)) fs' ->
      fields_result loc d fs' = inr xs' -> incl xs' xs ->
      fields_result loc' xs fs' = inr xs').
    { rewrite (G fs xs); auto using incl_refl.
      revert IH. apply List.Forall_impl. intros f Hf l v v' Hw. now apply Hf. }
    induction fs' as [|[[n ty] i] rest IHf]; intros xs' Hrec Hwf' Hres Hincl.
    + apply fields_result_nil_ok in Hres as ->. reflexivity.
    + apply fields_result_cons_ok in Hres as (x & xs'' & Hx & Hres & ->).
      apply Forall_cons_iff in Hrec as [Hty Hrec].
      apply Forall_cons_iff in Hwf' as [[Hwty Hdef] Hwf'].
      cbn [fst snd] in *.
      assert (Hg : get n xs = Some x).
      { apply get_present; [now rewrite Hkeys|]. apply Hincl. now left. }
      cbn [fields_result].
      rewrite (field_result_again loc loc' d xs n ty i x); auto.
      * rewrite (IHf xs''); auto. intros y Hy. apply Hincl. now right.
      * intros l v v'. now apply Hty.
Qed.

Lemma models_well_formed : Forall well_formed models.
Proof.
  assert (Hh : well_formed Holding).
  { apply well_formed_model. split.
    - cbn. repeat constructor; cbn; intuition discriminate.
    - repeat constructor. }
  unfold models. repeat apply List.Forall_cons; [exact Hh| | | | |apply List.Forall_nil];
    apply well_formed_model; (split;
      [cbn; repeat constructor; cbn; intuition discriminate
      | repeat (apply List.Forall_cons || apply List.Forall_nil); cbn [fst snd];
        (split; [try exact Hh; exact I | try exact I; intros loc; reflexivity])]).
Qed.

(** X7.  Normalisation is idempotent: for each embedded model of
    [schemas.py], a document that came out of validation validates again,
    to itself; defaults that were filled in and integers that were
    turned into floats stay as they are. *)
Theorem X7_normalisation_idempotent (t : ftype) (v v' : json) :
  In t models ->
  model_validate t v = inr v' ->
  model_validate t v' = inr v'.
Proof.
  intros Hin Hv. unfold model_validate in *.
  pose proof models_well_formed as Hwf.
  rewrite List.Forall_forall in Hwf.
  exact (validate_again t (Hwf t Hin) [] v v' Hv []).
Qed.


(** X9.  A validated model holds exactly its declared fields, in the
    order of the declaration, whatever the order and the extra entries of
    the input; a validated Order has its six fields. *)
Theorem X9_validated_keys (fs : list (string * ftype * FieldInfo))
    (v v' : json) :
  model_validate (TModel fs) v = inr v' ->
  exists d xs, v = JObj d /\ v' = JObj xs /\
    map fst xs = map (fun f => fst (fst f)) fs /\
    List.length xs = List.length fs.
Proof.
  unfold model_validate. intros H.
  destruct v as [| | | | | |d]; try discriminate.
  rewrite validate_model in H.
  destruct (fields_result [] d fs) as [es|xs] eqn:Hxs; [discriminate|].
  injection H as <-. exists d, xs.
  pose proof (fields_result_keys _ _ _ _ Hxs) as Hk.
  repeat split; [exact Hk|].
  now rewrite <- (length_map fst), Hk, length_map.
Qed.

(** X10.  A required field that is absent is reported as [missing] under
    its name, for every model and whatever else is wrong with the
    document; and a body that is not an object is rejected as a whole. *)
Theorem X10_missing_required (fs : list (string * ftype * FieldInfo))
    (d : list (string * json)) (name : string) (ty : ftype)
    (lo hi : option Z) :
  In (name, ty, Field None lo hi) fs ->
  get name d = None ->
  (exists errs, model_validate (TModel fs) (JObj d) = inl errs /\
                In ([LField name], missing) errs) /\
  (forall v, (forall o, v <> JObj o) ->
             model_validate (TModel fs) v = inl [([], model_type)]).
Proof.
  intros Hin Hg. split.
  - assert (Hf : field_result [] d (name, ty, Field None lo hi)
                 = inl [([LField name], missing)])
      by (unfold field_result; rewrite Hg; reflexivity).
    destruct (model_error fs d _ _ Hin Hf) as (errs & He & Hi).
    exists errs. split; [exact He|]. apply Hi. now left.
  - intros v Hv. unfold model_validate.
    destruct v; try reflexivity. now destruct (Hv entries).
Qed.

(** * Further properties of the handlers *)




Lemma stringify_id_string (d : document) : string_id (stringify_id d).
Proof.
  unfold string_id, stringify_id. destruct (doc_id d) as [i|] eqn:E; cbn.
  - exact I.
  - now rewrite E.
Qed.

Lemma stringify_id_fields (d : document) :
  doc_fields (stringify_id d) = doc_fields d.
Proof. unfold stringify_id. now destruct (doc_id d). Qed.

Lemma stringify_id_twice (d : document) :
  stringify_id (stringify_id d) = stringify_id d.
Proof. unfold stringify_id. destruct (doc_id d) as [[s|s]|] eqn:E; cbn; now rewrite ?E. Qed.

(** what each store route does on a configured store *)
Lemma app_get (st : store) (r : request) (name : string) (limit : Z) :
  collection_of r = Some name -> limit_of r = Some limit ->
  app (Some st) r
  = (Ok (Documents (map stringify_id
                      (get_documents st name no_filter limit))), Some st).
Proof.
  destruct r; try discriminate; intros [= <-] [= <-]; reflexivity.
Qed.

Lemma app_post (st : store) (r : request) (name : string) (p : instance) :
  collection_of r = Some name -> payload_of r = Some p ->
  exists rest,
    app (Some st) r
    = (Ok (Dict (("id", JStr (fst (create_document st name p))) :: rest)),
       Some (snd (create_document st name p))).
Proof.
  destruct r; try discriminate; intros [= <-] [= <-]; eexists; reflexivity.
Qed.

(** X11.  A Strategy needs only [user_id] and [name]: [params] absent
    becomes the empty object and [active] absent becomes [True]; given,
    any object and any boolean are kept as they are. *)
Theorem X11_strategy_defaults (d : list (string * json)) (uid nm : pystr)
    (ps : list (string * json)) (b : bool) :
  get "user_id" d = Some (JStr uid) ->
  get "name" d = Some (JStr nm) ->
  get "params" d = Some (JObj ps) \/ (get "params" d = None /\ ps = []) ->
  get "active" d = Some (JBool b) \/ (get "active" d = None /\ b = true) ->
  model_validate Strategy (JObj d)
  = inr (JObj [ ("user_id", JStr uid); ("name", JStr nm);
                ("params", JObj ps); ("active", JBool b) ]).
Proof.
  intros Hu Hn Hp Ha. unfold model_validate, Strategy.
  rewrite validate_model. cbn [fields_result]. unfold field_result.
  rewrite Hu, Hn.
  destruct Hp as [-> | [-> ->]], Ha as [-> | [-> ->]]; reflexivity.
Qed.



Lemma X2_signal_by_residue_witness :
  signal (insight_of (u "en") (u "AAPL")) = u "sell".
Proof.
  destruct (X2_signal_by_residue (u "en") (u "AAPL")) as (_ & H & _).
  apply H. vm_compute. discriminate.
Defined.

(** X14.  A list route on a configured store leaves the store as it is
    and returns the documents of its own collection that the query gives,
    fields untouched and in order, every identifier turned into a string;
    at most [limit] of them, where [limit] absent is 20 for portfolios
    and 50 for orders and strategies; and all of them when the collection
    fits under the limit. *)
Theorem X14_listing (st : store) (r : request) (name : string) (limit : Z) :
  collection_of r = Some name -> limit_of r = Some limit ->
  exists docs,
    app (Some st) r = (Ok (Documents docs), Some st) /\
    Forall string_id docs /\
    map doc_fields docs
    = map doc_fields (get_documents st name no_filter limit) /\
    (0 <= limit -> Z.of_nat (List.length docs) <= limit) /\
    (Z.of_nat (List.length (collection st name)) <= limit ->
     map doc_fields docs = map doc_fields (collection st name)).
Proof.
  intros Hc Hl. rewrite (app_get st r name limit Hc Hl).
  eexists. split; [reflexivity|]. split; [|split; [|split]].
  - apply List.Forall_forall. intros d Hd. apply in_map_iff in Hd as (d0 & <- & _).
    apply stringify_id_string.
  - rewrite map_map. apply map_ext. intros d. apply stringify_id_fields.
  - intros H0. rewrite length_map. now apply get_documents_bounded.
  - intros Hfit. rewrite get_documents_all by exact Hfit.
    rewrite map_map. apply map_ext. intros d. apply stringify_id_fields.
Qed.

Lemma X14_listing_witness :
  exists docs,
    app (Some (snd (create_document empty_store "portfolio"
                      [("user_id", JStr (u "u1"))])))
        (GET_portfolio None)
    = (Ok (Documents docs),
       Some (snd (create_document empty_store "portfolio"
                    [("user_id", JStr (u "u1"))]))) /\
    Z.of_nat (List.length docs) <= 20 /\
    map doc_fields docs = [[("user_id", JStr (u "u1"))]].
Proof.
  destruct (X14_listing
              (snd (create_document empty_store "portfolio"
                      [("user_id", JStr (u "u1"))]))
              (GET_portfolio None) "portfolio" 20 eq_refl eq_refl)
    as (docs & Happ & _ & _ & Hb & Hall).
  exists docs. split; [exact Happ|]. split; [apply Hb; lia|].
  rewrite Hall by (vm_compute; discriminate). vm_compute. reflexivity.
Defined.

(** X15.  A POST route on a configured store succeeds, returns the
    identifier the store assigned, adds its payload at the end of its own
    collection and touches no other collection: every list route of
    another collection answers afterwards as it did before. *)
Theorem X15_post_stores (st : store) (r : request) (name : string)
    (p : instance) :
  collection_of r = Some name -> payload_of r = Some p ->
  exists id st' rest,
    app (Some st) r = (Ok (Dict (("id", JStr id) :: rest)), Some st') /\
    collection st' name
    = collection st name ++ [{| doc_id := Some (ObjectId id); doc_fields := p |}] /\
    (forall other, other <> name -> collection st' other = collection st other) /\
    (forall g other limit,
       collection_of g = Some other -> limit_of g = Some limit ->
       other <> name ->
       fst (app (Some st') g) = fst (app (Some st) g)).
Proof.
  intros Hc Hp. destruct (app_post st r name p Hc Hp) as (rest & Happ).
  exists (fst (create_document st name p)), (snd (create_document st name p)), rest.
  split; [exact Happ|]. split; [apply collection_created|].
  split; [intros other Hne; now apply collection_untouched|].
  intros g other limit Hg Hl Hne.
  rewrite (app_get _ g other limit Hg Hl), (app_get _ g other limit Hg Hl).
  cbn [fst]. unfold get_documents.
  now rewrite collection_untouched.
Qed.

Lemma X15_post_stores_witness :
  fst (app (snd (app (Some empty_store)
                     (POST_orders [("user_id", JStr (u "u1"))])))
           (GET_portfolio None))
  = fst (app (Some empty_store) (GET_portfolio None)).
Proof.
  destruct (X15_post_stores empty_store
              (POST_orders [("user_id", JStr (u "u1"))]) "order"
              [("user_id", JStr (u "u1"))] eq_refl eq_refl)
    as (id & st' & rest & Happ & _ & _ & Hiso).
  rewrite Happ. cbn [snd].
  apply (Hiso (GET_portfolio None) "portfolio" 20); try reflexivity.
  discriminate.
Defined.

(** X16.  What a POST route stored, the list route of the same collection
    returns: with room under the limit the list has one document more
    than the collection had, and the last one carries the payload
    unchanged under the identifier the POST returned, as a string. *)
Theorem X16_post_then_get (st : store) (p g : request) (name : string)
    (payload : instance) (limit : Z) :
  collection_of p = Some name -> payload_of p = Some payload ->
  collection_of g = Some name -> limit_of g = Some limit ->
  Z.of_nat (List.length (collection st name)) < limit ->
  exists id rest docs,
    fst (app (Some st) p) = Ok (Dict (("id", JStr id) :: rest)) /\
    fst (app (snd (app (Some st) p)) g) = Ok (Documents docs) /\
    List.length docs = S (List.length (collection st name)) /\
    nth_error docs (List.length (collection st name))
    = Some {| doc_id := Some (IdStr id); doc_fields := payload |}.
Proof.
  intros Hc Hp Hg Hl Hroom.
  destruct (app_post st p name payload Hc Hp) as (rest & Happ).
  exists (fst (create_document st name payload)), rest.
  rewrite Happ. cbn [fst snd].
  rewrite (app_get _ g name limit Hg Hl). cbn [fst].
  eexists. split; [reflexivity|]. split; [reflexivity|].
  rewrite get_documents_all
    by (rewrite collection_created, length_app; cbn [List.length]; lia).
  rewrite collection_created, map_app, length_app, length_map.
  cbn [List.length map]. split; [lia|].
  rewrite nth_error_app2 by (rewrite length_map; lia).
  rewrite length_map, Nat.sub_diag. reflexivity.
Qed.

Lemma X16_post_then_get_witness :
  exists id rest docs,
    fst (app (Some empty_store) (POST_strategies [("name", JStr (u "s"))]))
    = Ok (Dict (("id", JStr id) :: rest)) /\
    fst (app (snd (app (Some empty_store)
                       (POST_strategies [("name", JStr (u "s"))])))
             (GET_strategies None)) = Ok (Documents docs) /\
    nth_error docs 0
    = Some {| doc_id := Some (IdStr id);
              doc_fields := [("name", JStr (u "s"))] |}.
Proof.
  destruct (X16_post_then_get empty_store
              (POST_strategies [("name", JStr (u "s"))])
              (GET_strategies None) "strategy" [("name", JStr (u "s"))] 50
              eq_refl eq_refl eq_refl eq_refl)
    as (id & rest & docs & H1 & H2 & _ & H3).
  - vm_compute. reflexivity.
  - exists id, rest, docs. split; [exact H1|]. split; [exact H2 | exact H3].
Defined.

(** * Properties of the diagnostics *)

(** run the handler on a given database, leaving the literals folded *)
Ltac run_test_database :=
  cbv beta iota zeta delta
    [Health.test_database Health.set_database Health.set_database_url
     Health.set_database_name Health.set_connection_status
     Health.set_collections Health.backend Health.database
     Health.database_url Health.database_name Health.connection_status
     Health.collections Health.name Health.list_collection_names].

Ltac literals_differ :=
  let H := fresh in
  intros H; apply (f_equal (fun s : pystr => (List.length s, hd 0%N s))) in H;
  vm_compute in H; discriminate.

(** X17.  In the diagnostics, [database_url] and [database_name] say only
    whether the environment variables [DATABASE_URL] and [DATABASE_NAME]
    are set to a non-empty string: what the database branch wrote into
    them (["Configured"], the database's name) is always overwritten, so
    the two entries are the same with and without a database; a variable
    set to the empty string counts as not set. *)
Theorem X17_diagnostics_environment (db db' : option Health.client)
    (getenv : string -> option pystr) :
  let r := Health.test_database db getenv in
  Health.database_url r
  = Some (if Health.truthy (getenv "DATABASE_URL")
          then u "✅ Set" else u "❌ Not Set") /\
  Health.database_name r
  = Some (if Health.truthy (getenv "DATABASE_NAME")
          then u "✅ Set" else u "❌ Not Set") /\
  Health.database_url r
  = Health.database_url (Health.test_database db' getenv) /\
  Health.database_name r
  = Health.database_name (Health.test_database db' getenv) /\
  (getenv "DATABASE_URL" = Some [] \/ getenv "DATABASE_URL" = None ->
   Health.database_url r = Some (u "❌ Not Set")).
Proof.
  assert (Hurl : forall d, Health.database_url (Health.test_database d getenv)
            = Some (if Health.truthy (getenv "DATABASE_URL")
                    then u "✅ Set" else u "❌ Not Set"))
    by (intros [[n [e|names]]|]; run_test_database; reflexivity).
  assert (Hname : forall d, Health.database_name (Health.test_database d getenv)
            = Some (if Health.truthy (getenv "DATABASE_NAME")
                    then u "✅ Set" else u "❌ Not Set"))
    by (intros [[n [e|names]]|]; run_test_database; reflexivity).
  cbv zeta. rewrite !Hurl, !Hname.
  split; [reflexivity|]. split; [reflexivity|].
  split; [reflexivity|]. split; [reflexivity|].
  intros [-> | ->]; reflexivity.
Qed.

Lemma X17_diagnostics_environment_witness :
  Health.database_url
    (Health.test_database
       (Some {| Health.name := Some (u "trading");
                Health.list_collection_names := inr [u "order"] |})
       (fun v => if String.eqb v "DATABASE_URL" then Some [] else None))
  = Some (u "❌ Not Set").
Proof.
  destruct (X17_diagnostics_environment
              (Some {| Health.name := Some (u "trading");
                       Health.list_collection_names := inr [u "order"] |})
              None
              (fun v => if String.eqb v "DATABASE_URL" then Some [] else None))
    as (_ & _ & _ & _ & H).
  apply H. left. reflexivity.
Defined.

(** X18.  The diagnostics list at most ten collections, the first names
    the database gives, in order; the list is empty without a database
    and when listing fails, and whenever it is not empty the database is
    reported as connected and working. *)
Theorem X18_diagnostics_collections (db : option Health.client)
    (getenv : string -> option pystr) :
  let r := Health.test_database db getenv in
  (List.length (Health.collections r) <= 10)%nat /\
  (forall c names,
     db = Some c -> Health.list_collection_names c = inr names ->
     names = Health.collections r ++ drop 10 names /\
     (List.length names <= 10 -> Health.collections r = names)%nat) /\
  (db = None \/
   (exists c e, db = Some c /\ Health.list_collection_names c = inl e) ->
   Health.collections r = []) /\
  (Health.collections r <> [] ->
   Health.database r = u "✅ Connected & Working" /\
   Health.connection_status r = u "Connected").
Proof.
  destruct db as [[n [e|names]]|]; run_test_database.
  - split; [cbv [List.length]; lia|].
    split; [intros c names [= <-]; discriminate|].
    split; [reflexivity|]. intros H; now destruct H.
  - split; [rewrite length_take; lia|]. split.
    + intros c names' [= <-] [= <-]. split.
      * symmetry. apply take_drop.
      * intros Hl. now apply take_ge.
    + split; [|intros _; split; reflexivity].
      intros [H | (c & e & [= <-] & H)]; discriminate.
  - split; [cbv [List.length]; lia|].
    split; [intros c names H; discriminate|].
    split; [reflexivity|]. intros H; now destruct H.
Qed.

Lemma X18_diagnostics_collections_witness :
  Health.collections
    (Health.test_database
       (Some {| Health.name := None;
                Health.list_collection_names :=
                  inr [u "order"; u "portfolio"] |})
       (fun _ => None))
  = [u "order"; u "portfolio"].
Proof.
  destruct (X18_diagnostics_collections
              (Some {| Health.name := None;
                       Health.list_collection_names :=
                         inr [u "order"; u "portfolio"] |})
              (fun _ => None)) as (_ & H & _).
  destruct (H _ _ eq_refl eq_refl) as [_ H2]. apply H2.
  cbv [List.length]. lia.
Defined.

(** X19.  The diagnostics always report the backend as running; the
    connection is ["Connected"] exactly when there is a database, also
    when listing its collections fails; the message of that failure is
    cut at 50 characters; and neither of the two values the [database]
    entry starts with (["Not Available"], ["Available"]) is ever
    returned. *)
Theorem X19_diagnostics_status (db : option Health.client)
    (getenv : string -> option pystr) :
  let r := Health.test_database db getenv in
  Health.backend r = u "✅ Running" /\
  (Health.connection_status r = u "Connected" <-> db <> None) /\
  (db = None -> Health.database r = u "⚠️  Available but not initialized") /\
  (forall c names,
     db = Some c -> Health.list_collection_names c = inr names ->
     Health.database r = u "✅ Connected & Working") /\
  (forall c e,
     db = Some c -> Health.list_collection_names c = inl e ->
     Health.database r = u "⚠️  Connected but Error: " ++ take 50 e /\
     (List.length (Health.database r) <= 75)%nat) /\
  Health.database r <> u "❌ Not Available" /\
  Health.database r <> u "✅ Available".
Proof.
  assert (Hlen : List.length (u "⚠️  Connected but Error: ") = 25%nat)
    by (vm_compute; reflexivity).
  assert (Hhd : forall t : pystr,
            hd 0%N (u "⚠️  Connected but Error: " ++ t) = 9888%N).
  { intros t. replace (u "⚠️  Connected but Error: ")
      with (9888%N :: tl (u "⚠️  Connected but Error: "))
      by (vm_compute; reflexivity). reflexivity. }
  assert (Hh1 : hd 0%N (u "❌ Not Available") = 10060%N)
    by (vm_compute; reflexivity).
  assert (Hh2 : hd 0%N (u "✅ Available") = 9989%N)
    by (vm_compute; reflexivity).
  destruct db as [[n [e|names]]|]; run_test_database.
  - split; [reflexivity|].
    split; [split; [discriminate | reflexivity]|].
    split; [discriminate|].
    split; [intros c names [= <-]; discriminate|].
    split.
    { intros c e' [= <-] [= <-]. split; [reflexivity|].
      rewrite length_app, length_take, Hlen. lia. }
    split; intros H; apply (f_equal (hd 0%N)) in H;
      rewrite Hhd, ?Hh1, ?Hh2 in H; discriminate.
  - split; [reflexivity|].
    split; [split; [discriminate | reflexivity]|].
    split; [discriminate|].
    split; [reflexivity|].
    split; [intros c e [= <-]; discriminate|].
    split; literals_differ.
  - split; [reflexivity|].
    split; [split; [literals_differ | congruence]|].
    split; [reflexivity|].
    split; [discriminate|].
    split; [discriminate|].
    split; literals_differ.
Qed.

Lemma X19_diagnostics_status_witness :
  Health.connection_status
    (Health.test_database
       (Some {| Health.name := None;
                Health.list_collection_names := inl (u "timed out") |})
       (fun _ => None)) = u "Connected" /\
  Health.database
    (Health.test_database
       (Some {| Health.name := None;
                Health.list_collection_names := inl (u "timed out") |})
       (fun _ => None)) = u "⚠️  Connected but Error: timed out".
Proof.
  destruct (X19_diagnostics_status
              (Some {| Health.name := None;
                       Health.list_collection_names := inl (u "timed out") |})
              (fun _ => None)) as (_ & [_ Hc] & _ & _ & He & _).
  split; [apply Hc; discriminate|].
  destruct (He _ _ eq_refl eq_refl) as [H _]. rewrite H.
  vm_compute. reflexivity.
Defined.

End Pydantic.

(** * Examples

    The properties above hold whatever the library's coercions are; the
    examples take the least ones. *)

Lemma C10_empty_symbol_witness :
  summary (insight_of (u "en") (u ""))
  = u " analysis: RSI 0.0, 14-day SMA 50.0. Recommendation: buy." /\
  summary (insight_of (u "ar") (u ""))
  = u "تحليل : مؤشر القوة النسبية 0.0، متوسط متحرك 14 يوم 50.0. التوصية: شراء.".
Proof.
  pose proof (C10_empty_symbol no_str_as_float no_lax_bool (u "en"))
    as (_ & _ & _ & _ & _ & Hen & _).
  pose proof (C10_empty_symbol no_str_as_float no_lax_bool (u "ar"))
    as (_ & _ & _ & _ & _ & _ & Har & _).
  split; [apply Hen; vm_compute; discriminate | apply Har; reflexivity].
Defined.

Lemma C6_store_not_configured_witness :
  app None (POST_orders [])
  = (HTTPException 500 (u "Database not configured"), None).
Proof.
  destruct (C6_store_not_configured no_str_as_float no_lax_bool
              (POST_orders [])) as [H _].
  apply H. reflexivity.
Defined.



Lemma C8_portfolio_boundary_witness :
  model_validate no_str_as_float no_lax_bool Portfolio
    (JObj [ ("user_id", JStr (u "u1")); ("holdings", JArr []);
            ("cash_sar", JInt 0) ])
  = inr (JObj [ ("user_id", JStr (u "u1")); ("holdings", JArr []);
                ("cash_sar", JFloat (S754_zero false)) ]).
Proof.
  destruct (C8_portfolio_boundary no_str_as_float no_lax_bool
              [ ("user_id", JStr (u "u1")); ("holdings", JArr []);
                ("cash_sar", JInt 0) ] (u "u1") (JInt 0))
    as (c & Hc & _ & Hv & _).
  - reflexivity.
  - left. reflexivity.
  - left. split; reflexivity.
  - injection Hc as <-. exact Hv.
Defined.

Lemma C9_order_round_trip_witness :
  exists stored,
    In stored
       (get_documents
          (snd (create_document empty_store "order"
                  [ ("user_id", JStr (u "u1")); ("symbol", JStr (u "2222"));
                    ("side", JStr (u "buy")); ("quantity", JFloat (of_int 5));
                    ("price", JFloat (of_int 30));
                    ("status", JStr (u "submitted")) ]))
          "order" no_filter 50) /\
    get "status" (doc_fields stored) = Some (JStr (u "submitted")) /\
    get "quantity" (doc_fields stored) = Some (JFloat (of_int 5)).
Proof.
  destruct (C9_order_round_trip no_str_as_float no_lax_bool
              (JObj [ ("user_id", JStr (u "u1")); ("symbol", JStr (u "2222"));
                      ("side", JStr (u "buy")); ("quantity", JInt 5);
                      ("price", JInt 30) ])
              [ ("user_id", JStr (u "u1")); ("symbol", JStr (u "2222"));
                ("side", JStr (u "buy")); ("quantity", JFloat (of_int 5));
                ("price", JFloat (of_int 30));
                ("status", JStr (u "submitted")) ]
              empty_store 50)
    as (_ & _ & _ & (stored & Hin & _ & Hf & _) & _).
  - vm_compute. reflexivity.
  - vm_compute. reflexivity.
  - exists stored. split; [exact Hin|]. rewrite Hf. split; reflexivity.
Defined.

Lemma X7_normalisation_idempotent_witness :
  model_validate no_str_as_float no_lax_bool Order
    (JObj [ ("user_id", JStr (u "u1")); ("symbol", JStr (u "2222"));
            ("side", JStr (u "buy")); ("quantity", JFloat (of_int 5));
            ("price", JFloat (of_int 30)); ("status", JStr (u "submitted")) ])
  = inr (JObj [ ("user_id", JStr (u "u1")); ("symbol", JStr (u "2222"));
            ("side", JStr (u "buy")); ("quantity", JFloat (of_int 5));
            ("price", JFloat (of_int 30)); ("status", JStr (u "submitted")) ]).
Proof.
  apply (X7_normalisation_idempotent no_str_as_float no_lax_bool Order
           (JObj [ ("price", JInt 30); ("user_id", JStr (u "u1"));
                   ("symbol", JStr (u "2222")); ("side", JStr (u "buy"));
                   ("quantity", JInt 5) ])).
  - right; right; left; reflexivity.
  - vm_compute. reflexivity.
Defined.


Lemma X9_validated_keys_witness :
  exists d xs,
    JObj [ ("price", JInt 30); ("user_id", JStr (u "u1"));
           ("symbol", JStr (u "2222")); ("side", JStr (u "buy"));
           ("quantity", JInt 5) ] = JObj d /\
    inr (A := list error_details) (JObj xs)
    = model_validate no_str_as_float no_lax_bool Order (JObj d) /\
    map fst xs
    = ["user_id"; "symbol"; "side"; "quantity"; "price"; "status"]%string.
Proof.
  destruct (X9_validated_keys no_str_as_float no_lax_bool
              [ ("user_id", TStr, required); ("symbol", TStr, required);
                ("side", TStr, required);
                ("quantity", TFloat, Field None None (Some 0));
                ("price", TFloat, Field None None (Some 0));
                ("status", TStr, Field (Some (JStr (u "submitted"))) None None) ]
              (JObj [ ("price", JInt 30); ("user_id", JStr (u "u1"));
                      ("symbol", JStr (u "2222")); ("side", JStr (u "buy"));
                      ("quantity", JInt 5) ])
              (JObj [ ("user_id", JStr (u "u1")); ("symbol", JStr (u "2222"));
                      ("side", JStr (u "buy")); ("quantity", JFloat (of_int 5));
                      ("price", JFloat (of_int 30));
                      ("status", JStr (u "submitted")) ]))
    as (d & xs & Hd & Hxs & Hk & _).
  - vm_compute. reflexivity.
  - exists d, xs. split; [exact Hd|]. injection Hd as <-. injection Hxs as <-.
    split; [vm_compute; reflexivity | exact Hk].
Defined.

Lemma X10_missing_required_witness :
  exists errs,
    model_validate no_str_as_float no_lax_bool Order
      (JObj [("user_id", JStr (u "u1"))]) = inl errs /\
    In ([LField "price"], missing) errs.
Proof.
  assert (Hin : In ("price", TFloat, Field None None (Some 0))
                  [ ("user_id", TStr, required); ("symbol", TStr, required);
                    ("side", TStr, required);
                    ("quantity", TFloat, Field None None (Some 0));
                    ("price", TFloat, Field None None (Some 0));
                    ("status", TStr,
                     Field (Some (JStr (u "submitted"))) None None) ])
    by (do 4 right; left; reflexivity).
  destruct (X10_missing_required no_str_as_float no_lax_bool _ [("user_id", JStr (u "u1"))]
              "price" TFloat None (Some 0) Hin eq_refl) as [H _].
  exact H.
Defined.

Lemma X11_strategy_defaults_witness :
  model_validate no_str_as_float no_lax_bool Strategy
    (JObj [("name", JStr (u "momentum")); ("user_id", JStr (u "u1"))])
  = inr (JObj [ ("user_id", JStr (u "u1")); ("name", JStr (u "momentum"));
                ("params", JObj []); ("active", JBool true) ]).
Proof.
  apply (X11_strategy_defaults no_str_as_float no_lax_bool); try reflexivity; right; split; reflexivity.
Defined.


